(** * Tolerant CSV ingestion of [app_2visma.py]: a shallow embedding

    The development embeds the ingestion engine of [app_2visma.py]
    ([safe_float_parse], [find_header_row], [parse_stock_visma],
    [parse_eco_visma], [parse_fuel_log]) and states its specification
    over the embedding.

    Conventions.
    - A Python [str] is a list of Unicode code points ([list N]); [u "..."]
      turns an ASCII literal into such a list.
    - A Python [float] is an IEEE 754 binary64 value, [spec_float] with
      precision 53 and maximal exponent 1024.
    - A Python [dict] is a [gmap]; a pandas [DataFrame] is its number of
      rows with the list of its labelled, typed columns.
    - An exception that the source catches by returning [None] (resp. by
      skipping a line) is an [option] result. *)

From Stdlib Require Import ZArith NArith List Bool Ascii String Lia.
From Stdlib Require Import Floats.SpecFloat.
From stdpp Require Import base option list gmap.

Local Open Scope Z_scope.

(** ** Python strings *)

Abbreviation str := (list N).

Definition chr (a : ascii) : N := N_of_ascii a.

Definition u (s : string) : str := map N_of_ascii (list_ascii_of_string s).

Module Py.

(** [str.isspace] on one code point: the Unicode white space characters
    that [str.strip()] removes. *)
Definition isspace (c : N) : bool :=
  ((9 <=? c) && (c <=? 13) || (28 <=? c) && (c <=? 32) || (c =? 133)
   || (c =? 160) || (c =? 5760) || (8192 <=? c) && (c <=? 8202)
   || (c =? 8232) || (c =? 8233) || (c =? 8239) || (c =? 8287)
   || (c =? 12288))%N.

Fixpoint drop_while (p : N -> bool) (s : str) : str :=
  match s with
  | [] => []
  | c :: r => if p c then drop_while p r else s
  end.

Definition lstrip (s : str) : str := drop_while isspace s.
Definition rstrip (s : str) : str := rev (drop_while isspace (rev s)).

(** [s.strip()] *)
Definition strip (s : str) : str := rstrip (lstrip s).

(** [a == b] on strings. *)
Fixpoint eqb (a b : str) : bool :=
  match a, b with
  | [], [] => true
  | x :: a', y :: b' => (x =? y)%N && eqb a' b'
  | _, _ => false
  end.

(** [a == b] on lists of strings. *)
Fixpoint list_eqb (a b : list str) : bool :=
  match a, b with
  | [] , [] => true
  | x :: a', y :: b' => eqb x y && list_eqb a' b'
  | _, _ => false
  end.

(** [x in l] for a list [l] of strings. *)
Definition in_list (x : str) (l : list str) : bool := existsb (eqb x) l.

(** [c in s] for a one-character string [c]. *)
Definition contains (c : N) (s : str) : bool := existsb (N.eqb c) s.

(** [s.replace(old, new)] for a one-character [old]. *)
Fixpoint replace (old : N) (new : str) (s : str) : str :=
  match s with
  | [] => []
  | c :: r => if (c =? old)%N then new ++ replace old new r
              else c :: replace old new r
  end.

Fixpoint rfind_from (c : N) (s : str) (i : Z) (found : Z) : Z :=
  match s with
  | [] => found
  | x :: r => rfind_from c r (i + 1) (if (x =? c)%N then i else found)
  end.

(** [s.rfind(c)] for a one-character [c]: the highest index, or -1. *)
Definition rfind (c : N) (s : str) : Z := rfind_from c s 0 (-1).

(** [s.startswith(c)] for a one-character [c]. *)
Definition startswith (c : N) (s : str) : bool :=
  match s with
  | x :: _ => (x =? c)%N
  | [] => false
  end.

(** The upper-case mapping of one code point, exact wherever the result
    consists of ASCII characters only: the ASCII letters, and the few
    other characters whose full upper-case form is ASCII (sharp s,
    dotless i, long s, and the Latin ligatures).  Any other character is
    kept, so that it cannot take part in a match with an ASCII word. *)
Definition upper_char (c : N) : str :=
  (if (97 <=? c) && (c <=? 122) then [c - 32]
   else if c =? 223 then [83; 83]
   else if c =? 305 then [73]
   else if c =? 383 then [83]
   else if c =? 64256 then [70; 70]
   else if c =? 64257 then [70; 73]
   else if c =? 64258 then [70; 76]
   else if c =? 64259 then [70; 70; 73]
   else if c =? 64260 then [70; 70; 76]
   else if (c =? 64261) || (c =? 64262) then [83; 84]
   else [c])%N.

(** [s.upper()], to be compared with ASCII words only. *)
Definition upper (s : str) : str := flat_map upper_char s.

Fixpoint split_lines (s : str) (cur : str) : list str :=
  match s with
  | [] => match cur with [] => [] | _ => [rev cur] end
  | c :: r => if (c =? 10)%N then rev (c :: cur) :: split_lines r []
              else split_lines r (c :: cur)
  end.

(** [io.StringIO(text).readlines()]: the lines of [text], each with its
    terminating line feed; no other character ends a line. *)
Definition readlines (text : str) : list str := split_lines text [].

(** [l[:n]] for [n >= 0] and [l[i]] come from the list library:
    [take n l] and [l !! i]. *)

End Py.

(** ** Python floats *)

Abbreviation float := spec_float.

Module Float.

Definition prec : Z := 53.
Definition emax : Z := 1024.

Definition zero : float := S754_zero false.
Definition infinity : float := S754_infinity false.
Definition nan : float := S754_nan.

(** [x * y] and [x + y] *)
Definition mul : float -> float -> float := SFmul prec emax.
Definition add : float -> float -> float := SFadd prec emax.

Definition is_nan (x : float) : bool :=
  match x with S754_nan => true | _ => false end.

(** [series.fillna(0.0)] on one value. *)
Definition fillna0 (x : float) : float := if is_nan x then zero else x.

(** The float nearest to [m * 2^e] (ties to even); exact when [m] has at
    most 53 bits and the exponent is in range. *)
Definition dyadic (m e : Z) : float := binary_normalize prec emax m e false.

(** The float nearest to [(-1)^neg * m * 10^e] (ties to even), for
    [m >= 0]: the value of a decimal literal. *)
Definition of_decimal (neg : bool) (m e : Z) : float :=
  match m with
  | Z0 => S754_zero neg
  | Zneg _ => S754_nan
  | Zpos _ =>
      if 0 <=? e then
        binary_normalize prec emax (cond_Zopp neg (m * 10 ^ e)) 0 false
      else
        let '(q, e', l) := SFdiv_core_binary prec emax m 0 (10 ^ (- e)) 0 in
        binary_round_aux prec emax neg q e' l
  end.

Definition isdigit (c : N) : bool := ((48 <=? c) && (c <=? 57))%N.

(** ASCII white space ([Py_ISSPACE]). *)
Definition isspace_ascii (c : N) : bool :=
  ((9 <=? c) && (c <=? 13) || (c =? 32))%N.

(** Code points of the digit zero of the Unicode decimal-digit blocks
    outside ASCII ([Py_UNICODE_TODECIMAL]). *)
Definition decimal_zeros : list N :=
  [1632; 1776; 1984; 2406; 2534; 2662; 2790; 2918; 3046; 3174; 3302; 3430;
   3558; 3664; 3792; 3872; 4160; 4240; 6112; 6160; 6470; 6608; 6784; 6800;
   6992; 7088; 7232; 7248; 42528; 43216; 43264; 43472; 43504; 43600; 44016;
   65296; 66720; 68912; 69734; 69872; 69942; 70096; 70384; 70736; 70864;
   71248; 71360; 71472; 71904; 72016; 72784; 73040; 73120; 73552; 92768;
   92864; 93008; 120782; 120792; 120802; 120812; 120822; 123200; 123632;
   124144; 125264; 130032]%N.

Definition to_decimal (c : N) : option N :=
  match List.find (fun z => (z <=? c) && (c <? z + 10))%N decimal_zeros with
  | Some z => Some (c - z)%N
  | None => None
  end.

(** The ASCII copy that [float] parses: white space becomes a space, a
    decimal digit its ASCII digit, and the copy ends with a question mark
    at the first other character outside ASCII. *)
Fixpoint to_ascii (s : str) : str :=
  match s with
  | [] => []
  | c :: r =>
      if (c <? 127)%N then c :: to_ascii r
      else if Py.isspace c then 32%N :: to_ascii r
      else match to_decimal c with
           | Some d => (48 + d)%N :: to_ascii r
           | None => [63%N]
           end
  end.

Definition strip_ascii (s : str) : str :=
  rev (Py.drop_while isspace_ascii (rev (Py.drop_while isspace_ascii s))).

(** Underscores may only stand between two digits; they are removed.
    [prev] is the previous character (0 at the start). *)
Fixpoint drop_underscores (prev : N) (s : str) : option str :=
  match s with
  | [] => if (prev =? 95)%N then None else Some []
  | c :: r =>
      if (c =? 95)%N then
        if isdigit prev then drop_underscores c r else None
      else if (prev =? 95)%N && negb (isdigit c) then None
      else option_map (cons c) (drop_underscores c r)
  end.

Fixpoint span_digits (s : str) : str * str :=
  match s with
  | [] => ([], [])
  | c :: r => if isdigit c then let '(d, t) := span_digits r in (c :: d, t)
              else ([], s)
  end.

(** The number written by a string of ASCII digits. *)
Definition digits_value (d : str) : Z :=
  fold_left (fun acc c => 10 * acc + Z.of_N (c - 48)) d 0.

Definition take_sign (s : str) : bool * str :=
  match s with
  | c :: r => if (c =? 45)%N then (true, r)
              else if (c =? 43)%N then (false, r) else (false, s)
  | [] => (false, s)
  end.

Definition lower_ascii (c : N) : N :=
  if ((65 <=? c) && (c <=? 90))%N then (c + 32)%N else c.

(** [inf], [infinity] and [nan] with an optional sign, in any case. *)
Definition parse_inf_or_nan (s : str) : option float :=
  let '(neg, r) := take_sign s in
  let w := map lower_ascii r in
  if Py.eqb w (u "inf") || Py.eqb w (u "infinity") then Some (S754_infinity neg)
  else if Py.eqb w (u "nan") then Some S754_nan
  else None.

(** The exponent part: empty, or [e]/[E], an optional sign and at least
    one digit, up to the end of the string. *)
Definition parse_exponent (s : str) : option Z :=
  match s with
  | [] => Some 0
  | c :: r =>
      if (c =? 101)%N || (c =? 69)%N then
        let '(neg, r1) := take_sign r in
        match span_digits r1 with
        | ([], _) => None
        | (d, []) => Some (cond_Zopp neg (digits_value d))
        | (_, _ :: _) => None
        end
      else None
  end.

(** A decimal literal: sign, digits with an optional point (at least one
    digit), optional exponent; the whole string must be consumed.  A
    string that does not start with a number may still be an infinity or
    a NaN. *)
Definition parse_number (s : str) : option float :=
  let '(neg, s1) := take_sign s in
  let '(ip, s2) := span_digits s1 in
  let '(fp, s3) :=
    match s2 with
    | c :: r => if (c =? 46)%N then span_digits r else ([], s2)
    | [] => ([], s2)
    end in
  match ip ++ fp with
  | [] => parse_inf_or_nan s
  | ds =>
      match parse_exponent s3 with
      | Some e => Some (of_decimal neg (digits_value ds) (e - Z.of_nat (length fp)))
      | None => None
      end
  end.

(** [float(s)] for a string [s]; [None] is [ValueError]. *)
Definition of_str (s : str) : option float :=
  let a := strip_ascii (to_ascii s) in
  if Py.contains 95 a then
    match drop_underscores 0 a with
    | Some b => parse_number b
    | None => None
    end
  else parse_number a.

End Float.

(** ** [safe_float_parse] *)

Definition sentinels : list str :=
  [u ""; u "-"; u "."; u "$"; u "nan"; u "#N/A"; u "N/A"; u "#VALUE!"; u "None"].

(** The argument is [None] for an absent value ([None] or a NaN cell, for
    which [pd.isna] holds) and [Some s] for a string. *)
Definition safe_float_parse (value_str : option str) : float :=
  match value_str with
  | None => Float.zero
  | Some v =>
      if Py.in_list (Py.strip v) sentinels then Float.zero
      else
        let value_str := Py.replace (chr " ") [] (Py.replace (chr "$") [] (Py.strip v)) in
        let value_str :=
          if Py.contains (chr ",") value_str && Py.contains (chr ".") value_str then
            let last_dot := Py.rfind (chr ".") value_str in
            let last_comma := Py.rfind (chr ",") value_str in
            if last_comma >? last_dot then
              Py.replace (chr ",") [chr "."] (Py.replace (chr ".") [] value_str)
            else Py.replace (chr ",") [] value_str
          else if Py.contains (chr ",") value_str then
            Py.replace (chr ",") [chr "."] value_str
          else value_str in
        if Py.eqb value_str [] || Py.in_list value_str [u "+"; u "-"] then Float.zero
        else
          match Float.of_str value_str with
          | Some x => x
          | None => Float.zero
          end
  end.


(** ** [csv.reader]

    [csv.reader(io.StringIO(line), delimiter=',')] followed by [next]: the
    reader of the [csv] module in its default dialect (delimiter comma,
    quote character double quote, doubled quotes, no escape character, not
    strict), as the character automaton of the module. *)

Module Csv.

Inductive state :=
| START_RECORD | START_FIELD | IN_FIELD | IN_QUOTED_FIELD
| QUOTE_IN_QUOTED_FIELD | EAT_CRNL.

(** The field being read and the fields read so far, both in reverse. *)
Record reader := mk_reader {
  st : state;
  field : str;
  fields : list str
}.

Definition field_limit : N := 131072.

Definition delimiter : N := 44.
Definition quotechar : N := 34.

Definition is_newline (c : N) : bool := ((c =? 10) || (c =? 13))%N.

Definition parse_reset : reader := mk_reader START_RECORD [] [].

(** [None] is [csv.Error]: field larger than the field limit. *)
Definition parse_add_char (r : reader) (c : N) : option reader :=
  if (field_limit <=? N.of_nat (length (field r)))%N then None
  else Some (mk_reader (st r) (c :: field r) (fields r)).

Definition parse_save_field (r : reader) : reader :=
  mk_reader (st r) [] (rev (field r) :: fields r).

Definition set_state (s : state) (r : reader) : reader :=
  mk_reader s (field r) (fields r).

(** One step on a character of the line. *)
Definition process_char (r : reader) (c : N) : option reader :=
  match st r with
  | START_RECORD =>
      if is_newline c then Some (set_state EAT_CRNL r)
      else if (c =? quotechar)%N then Some (set_state IN_QUOTED_FIELD r)
      else if (c =? delimiter)%N then Some (set_state START_FIELD (parse_save_field r))
      else option_map (set_state IN_FIELD) (parse_add_char r c)
  | START_FIELD =>
      if is_newline c then Some (set_state EAT_CRNL (parse_save_field r))
      else if (c =? quotechar)%N then Some (set_state IN_QUOTED_FIELD r)
      else if (c =? delimiter)%N then Some (parse_save_field r)
      else option_map (set_state IN_FIELD) (parse_add_char r c)
  | IN_FIELD =>
      if is_newline c then Some (set_state EAT_CRNL (parse_save_field r))
      else if (c =? delimiter)%N then Some (set_state START_FIELD (parse_save_field r))
      else parse_add_char r c
  | IN_QUOTED_FIELD =>
      if (c =? quotechar)%N then Some (set_state QUOTE_IN_QUOTED_FIELD r)
      else parse_add_char r c
  | QUOTE_IN_QUOTED_FIELD =>
      if (c =? quotechar)%N then option_map (set_state IN_QUOTED_FIELD) (parse_add_char r c)
      else if (c =? delimiter)%N then Some (set_state START_FIELD (parse_save_field r))
      else if is_newline c then Some (set_state EAT_CRNL (parse_save_field r))
      else option_map (set_state IN_FIELD) (parse_add_char r c)
  | EAT_CRNL =>
      if is_newline c then Some r else None
  end.

(** The step at the end of a line. *)
Definition process_eol (r : reader) : reader :=
  match st r with
  | START_RECORD => r
  | START_FIELD | IN_FIELD | QUOTE_IN_QUOTED_FIELD =>
      set_state START_RECORD (parse_save_field r)
  | IN_QUOTED_FIELD => r
  | EAT_CRNL => set_state START_RECORD r
  end.

Definition is_start_record (r : reader) : bool :=
  match st r with START_RECORD => true | _ => false end.

Definition in_quoted_field (r : reader) : bool :=
  match st r with IN_QUOTED_FIELD => true | _ => false end.

(** The input is exhausted while a record is open. *)
Definition end_of_input (r : reader) : option (list str) :=
  if negb (Nat.eqb (length (field r)) 0) || in_quoted_field r
  then Some (rev (fields (parse_save_field r)))
  else None.

(** The reader's loop over the lines of the input; a line ends after a
    line feed.  [pending] tells whether characters of the current line
    were read. *)
Fixpoint run (r : reader) (pending : bool) (s : str) : option (list str) :=
  match s with
  | [] =>
      if pending then
        let r' := process_eol r in
        if is_start_record r' then Some (rev (fields r')) else end_of_input r'
      else end_of_input r
  | c :: rest =>
      match process_char r c with
      | None => None
      | Some r1 =>
          if (c =? 10)%N then
            let r2 := process_eol r1 in
            if is_start_record r2 then Some (rev (fields r2))
            else run r2 false rest
          else run r1 true rest
      end
  end.

(** [next(csv.reader(io.StringIO(s), delimiter=','))]; [None] is an
    exception ([csv.Error], or [StopIteration] on an empty input). *)
Definition next_row (s : str) : option (list str) := run parse_reset false s.

End Csv.

(** ** [find_header_row] *)

Definition BOM : N := 65279.

(** Lines 81-83: the fields trimmed, then a byte-order mark taken off the
    first one. *)
Definition cleaned_fields (header_fields : list str) : list str :=
  match map Py.strip header_fields with
  | f0 :: rest => if Py.startswith BOM f0 then tl f0 :: rest else f0 :: rest
  | [] => []
  end.

(** The body of the loop for one line: [Some fields] when the line is the
    header looked for. *)
Definition header_match (line : str) (expected_headers_list : list str)
  : option (list str) :=
  let line_strip := Py.strip line in
  if Py.eqb line_strip [] then None
  else
    match Csv.next_row line_strip with
    | Some header_fields =>
        let cleaned := cleaned_fields header_fields in
        if Py.list_eqb cleaned expected_headers_list then Some cleaned else None
    | None => None
    end.

Fixpoint find_header_from (i : nat) (lines : list str)
  (expected_headers_list : list str) : option (nat * list str) :=
  match lines with
  | [] => None
  | line :: rest =>
      match header_match line expected_headers_list with
      | Some cleaned => Some (i, cleaned)
      | None => find_header_from (S i) rest expected_headers_list
      end
  end.

(** [find_header_row(content_lines, expected_headers_list, search_range)]:
    [Some (i, fields)] for the result [(i, fields)], [None] for
    [(-1, None)]. *)
Definition find_header_row (content_lines : list str)
  (expected_headers_list : list str) (search_range : nat)
  : option (nat * list str) :=
  find_header_from 0 (take search_range content_lines) expected_headers_list.

Definition default_search_range : nat := 50.

(** ** pandas data frames

    A frame is its number of rows (the length of its index) and its columns
    in order, each a label with a typed series.  An operation of pandas is
    given on the series it is applied to in the source; on another kind of
    series it has no result here ([None]), and the parsers are shown never
    to reach such a case. *)

Inductive series :=
| StrS (l : list str)              (* object column holding strings *)
| ObjS (l : list (option str))     (* object column read from a file: strings, NaN for a missing cell *)
| NumS (l : list float)            (* float64 *)
| TimeS (l : list (option Z)).     (* datetime64, [None] for NaT *)

Inductive cell :=
| CStr (s : str)
| CMissing
| CNum (x : float)
| CTime (t : option Z).

Record DataFrame := mk_frame {
  nrows : nat;
  cols : list (str * series)
}.

Module Pd.

Definition series_length (s : series) : nat :=
  match s with
  | StrS l => length l | ObjS l => length l
  | NumS l => length l | TimeS l => length l
  end.

Definition series_cells (s : series) : list cell :=
  match s with
  | StrS l => map CStr l
  | ObjS l => map (fun c => match c with Some x => CStr x | None => CMissing end) l
  | NumS l => map CNum l
  | TimeS l => map CTime l
  end.

(** [df.columns] *)
Definition columns (df : DataFrame) : list str := map fst (cols df).

(** [col in df.columns] *)
Definition has_column (col : str) (df : DataFrame) : bool :=
  Py.in_list col (columns df).

Fixpoint lookup_col (col : str) (l : list (str * series)) : option series :=
  match l with
  | [] => None
  | (c, s) :: r => if Py.eqb c col then Some s else lookup_col col r
  end.

(** [df[col]]; [None] is [KeyError]. *)
Definition getcol (col : str) (df : DataFrame) : option series :=
  lookup_col col (cols df).

Fixpoint assign_col (col : str) (s : series) (l : list (str * series))
  : list (str * series) :=
  match l with
  | [] => [(col, s)]
  | (c, s0) :: r => if Py.eqb c col then (c, s) :: r
                    else (c, s0) :: assign_col col s r
  end.

(** [df[col] = s]: the column is replaced in place, or added last. *)
Definition setcol (col : str) (s : series) (df : DataFrame) : DataFrame :=
  mk_frame (nrows df) (assign_col col s (cols df)).

(** [df[col] = ''] and [df[col] = 0.0], [df[col] = pd.NaT]. *)
Definition set_str (col : str) (v : str) (df : DataFrame) : DataFrame :=
  setcol col (StrS (repeat v (nrows df))) df.
Definition set_num (col : str) (v : float) (df : DataFrame) : DataFrame :=
  setcol col (NumS (repeat v (nrows df))) df.
Definition set_nat (col : str) (df : DataFrame) : DataFrame :=
  setcol col (TimeS (repeat None (nrows df))) df.

(** [pd.DataFrame(columns=labels)]: no rows, empty object columns. *)
Definition empty (labels : list str) : DataFrame :=
  mk_frame 0 (map (fun c => (c, ObjS [])) labels).

Fixpoint columns_of_rows {A} (d : A) (i : nat) (labels : list str)
  (rows : list (list A)) : list (str * list A) :=
  match labels with
  | [] => []
  | c :: r => (c, map (fun row => nth i row d) rows)
                :: columns_of_rows d (S i) r rows
  end.

(** [pd.DataFrame(data_rows, columns=labels)] for rows of strings;
    [None] is the [ValueError] raised when a row has not one field per
    label. *)
Definition of_rows (data_rows : list (list str)) (labels : list str)
  : option DataFrame :=
  if forallb (fun row => Nat.eqb (length row) (length labels)) data_rows then
    Some (mk_frame (length data_rows)
            (map (fun '(c, l) => (c, StrS l)) (columns_of_rows [] 0 labels data_rows)))
  else None.

(** [str(x)] for a cell of an object column: the string itself, or
    ['nan'] for a missing cell. *)
Definition astype_str (c : option str) : str :=
  match c with Some s => s | None => u "nan" end.

(** [s.astype(str).str.strip().fillna('')]: after [astype(str)] no cell is
    missing, so [fillna] changes nothing. *)
Definition strip_series (s : series) : option series :=
  match s with
  | StrS l => Some (StrS (map Py.strip l))
  | ObjS l => Some (StrS (map (fun c => Py.strip (astype_str c)) l))
  | _ => None
  end.

(** [s.apply(safe_float_parse)] *)
Definition apply_safe_float_parse (s : series) : option series :=
  match s with
  | StrS l => Some (NumS (map (fun x => safe_float_parse (Some x)) l))
  | ObjS l => Some (NumS (map safe_float_parse l))
  | _ => None
  end.

(** [a.fillna(0.0) * b.fillna(0.0)] *)
Definition mul_fillna0 (a b : series) : option series :=
  match a, b with
  | NumS x, NumS y =>
      Some (NumS (zip_with (fun p q => Float.mul (Float.fillna0 p) (Float.fillna0 q)) x y))
  | _, _ => None
  end.

(** [pd.to_numeric(s, errors='coerce').fillna(0.0)] on a float column. *)
Definition to_numeric_fillna0 (s : series) : option series :=
  match s with
  | NumS l => Some (NumS (map Float.fillna0 l))
  | _ => None
  end.

(** [s != ''] on a column of strings. *)
Definition ne_empty (s : series) : option (list bool) :=
  match s with
  | StrS l => Some (map (fun x => negb (Py.eqb x [])) l)
  | _ => None
  end.

(** [s.astype(str).str.strip() != ''] on a column of strings. *)
Definition strip_ne_empty (s : series) : option (list bool) :=
  match s with
  | StrS l => Some (map (fun x => negb (Py.eqb (Py.strip x) [])) l)
  | _ => None
  end.

(** [s.notna()] on a column of dates. *)
Definition notna (s : series) : option (list bool) :=
  match s with
  | TimeS l => Some (map (fun t => match t with Some _ => true | None => false end) l)
  | _ => None
  end.

(** [s.map(d).fillna(default)] for a dictionary [d] on a column of
    strings. *)
Definition map_dict (d : gmap (list N) (list N)) (default : str) (s : series)
  : option series :=
  match s with
  | StrS l => Some (StrS (map (fun x => match d !! x with Some v => v | None => default end) l))
  | _ => None
  end.

Fixpoint select {A} (mask : list bool) (l : list A) : list A :=
  match mask, l with
  | b :: m, x :: r => if b then x :: select m r else select m r
  | _, _ => []
  end.

Definition select_series (mask : list bool) (s : series) : series :=
  match s with
  | StrS l => StrS (select mask l)
  | ObjS l => ObjS (select mask l)
  | NumS l => NumS (select mask l)
  | TimeS l => TimeS (select mask l)
  end.

(** [df[mask]]: the rows where the mask holds. *)
Definition filter_rows (mask : list bool) (df : DataFrame) : DataFrame :=
  mk_frame (length (select mask (seq 0 (nrows df))))
    (map (fun '(c, s) => (c, select_series mask s)) (cols df)).

(** [df.loc[:, [col for col in labels if col in df.columns]]]: for each
    label in turn, the columns that carry it. *)
Definition loc_present (labels : list str) (df : DataFrame) : DataFrame :=
  mk_frame (nrows df)
    (flat_map (fun c => List.filter (fun cs => Py.eqb (fst cs) c) (cols df)) labels).

(** [dict(zip(keys, values))]: a later pair replaces an earlier one with
    the same key. *)
Definition dict_of_zip (keys values : list str) : gmap (list N) (list N) :=
  fold_left (fun d kv => <[fst kv := snd kv]> d) (zip keys values) ∅.

(** [df.rename(columns=d)] for a dictionary [d] of old and new labels. *)
Definition rename_label (d : gmap (list N) (list N)) (c : str) : str :=
  match d !! c with Some new => new | None => c end.

Definition rename (d : gmap (list N) (list N)) (df : DataFrame) : DataFrame :=
  mk_frame (nrows df) (map (fun '(c, s) => (rename_label d c, s)) (cols df)).

(** [df.empty]: no row or no column. *)
Definition is_empty (df : DataFrame) : bool :=
  Nat.eqb (nrows df) 0 || Nat.eqb (length (cols df)) 0.

(** The cell of row [i] in column [col]. *)
Definition cell_at (df : DataFrame) (col : str) (i : nat) : option cell :=
  match getcol col df with
  | Some s => series_cells s !! i
  | None => None
  end.

(** Row [i] as the list of its labelled cells. *)
Definition record (df : DataFrame) (i : nat) : list (str * option cell) :=
  map (fun '(c, s) => (c, series_cells s !! i)) (cols df).

(** A loop [for col in labels: df = body col df] whose body may raise. *)
Fixpoint for_each (labels : list str)
  (body : str -> DataFrame -> option DataFrame) (df : DataFrame)
  : option DataFrame :=
  match labels with
  | [] => Some df
  | c :: r => match body c df with
              | Some df' => for_each r body df'
              | None => None
              end
  end.

End Pd.

(** ** Column labels *)

Definition Codigo : str := u "Codigo".
Definition Producto : str := u "Producto".
Definition Categoria : str := u "Categoria".
Definition CantidadActual : str := u "CantidadActual".
Definition CostoUnitario : str := u "CostoUnitario".
Definition Ubicacion : str := u "Ubicacion".
Definition STOCK_MINIMO : str := u "STOCK_MINIMO".
Definition Valor_Total_Item : str := u "Valor Total Item".
Definition Invierno : str := u "Invierno".
Definition Verano : str := u "Verano".

(** ** [parse_stock_visma] *)

Definition expected_header_full : list str :=
  [Codigo; Producto; Categoria; CantidadActual; CostoUnitario; Ubicacion; STOCK_MINIMO].

Definition expected_header_no_min : list str :=
  [Codigo; Producto; Categoria; CantidadActual; CostoUnitario; Ubicacion].

Definition final_cols_order : list str :=
  [Codigo; Producto; Categoria; CantidadActual; CostoUnitario; Valor_Total_Item;
   Ubicacion; STOCK_MINIMO].

(** Lines 154-160: a short row is padded with empty strings, a long one is
    cut to the first [expected_field_count] fields. *)
Definition pad_or_truncate (expected_field_count : nat) (fields : list str)
  : list str :=
  if Nat.ltb (length fields) expected_field_count
  then fields ++ repeat [] (expected_field_count - length fields)
  else take expected_field_count fields.

(** Lines 144-170, the loop over the lines [i], [i+1], ... of the file.  The
    result is [data_rows] with the line numbers ([i + 1]) of the warnings
    issued for the lines that the reader rejects. *)
Fixpoint stock_read_rows (i : nat) (lines : list str) (expected_field_count : nat)
  : list (list str) * list nat :=
  match lines with
  | [] => ([], [])
  | l :: rest =>
      let line := Py.strip l in
      let '(data_rows, warnings) := stock_read_rows (S i) rest expected_field_count in
      if Py.eqb line [] then (data_rows, warnings)
      else
        match Csv.next_row line with
        | Some fields => (pad_or_truncate expected_field_count fields :: data_rows, warnings)
        | None => (data_rows, (i + 1)%nat :: warnings)
        end
  end.

Definition stock_data_rows (content : list str) (header_row_index : nat)
  (expected_field_count : nat) : list (list str) * list nat :=
  stock_read_rows (S header_row_index) (drop (S header_row_index) content)
    expected_field_count.

Definition stock_string_cols : list str := [Codigo; Producto; Categoria; Ubicacion].
Definition stock_numeric_cols : list str := [CantidadActual; CostoUnitario].
Definition stock_numeric_final : list str :=
  [CantidadActual; CostoUnitario; Valor_Total_Item; STOCK_MINIMO].

(** Lines 188-256: cleaning, derived column, filter and final selection.
    [None] is an exception, which the caller turns into the result
    [None]. *)
Definition stock_clean (df_raw_data : DataFrame) : option DataFrame :=
  let df_cleaned := df_raw_data in
  (* 193-195 *)
  let string_cols_present :=
    List.filter (fun col => Pd.has_column col df_cleaned) stock_string_cols in
  df_cleaned ← Pd.for_each string_cols_present
    (fun col df => s ← Pd.getcol col df; s' ← Pd.strip_series s;
                   Some (Pd.setcol col s' df)) df_cleaned;
  (* 198-200 *)
  df_cleaned ← Pd.for_each stock_string_cols
    (fun col df => if Pd.has_column col df then Some df
                   else Some (Pd.set_str col [] df)) df_cleaned;
  (* 205-208 *)
  let numeric_cols_present :=
    List.filter (fun col => Pd.has_column col df_cleaned) stock_numeric_cols in
  df_cleaned ← Pd.for_each numeric_cols_present
    (fun col df => s ← Pd.getcol col df; s' ← Pd.apply_safe_float_parse s;
                   Some (Pd.setcol col s' df)) df_cleaned;
  (* 211-215 *)
  df_cleaned ←
    (if Pd.has_column STOCK_MINIMO df_cleaned then
       s ← Pd.getcol STOCK_MINIMO df_cleaned; s' ← Pd.apply_safe_float_parse s;
       Some (Pd.setcol STOCK_MINIMO s' df_cleaned)
     else Some (Pd.set_num STOCK_MINIMO Float.zero df_cleaned));
  (* 219-221 *)
  df_cleaned ← Pd.for_each stock_numeric_cols
    (fun col df => if Pd.has_column col df then Some df
                   else Some (Pd.set_num col Float.zero df)) df_cleaned;
  (* 226 *)
  q ← Pd.getcol CantidadActual df_cleaned;
  c ← Pd.getcol CostoUnitario df_cleaned;
  v ← Pd.mul_fillna0 q c;
  let df_cleaned := Pd.setcol Valor_Total_Item v df_cleaned in
  (* 235-240 *)
  df_cleaned ← Pd.for_each final_cols_order
    (fun col df => if Pd.has_column col df then Some df
                   else if Py.in_list col stock_numeric_final
                        then Some (Pd.set_num col Float.zero df)
                        else Some (Pd.set_str col [] df)) df_cleaned;
  (* 245-251 *)
  df_cleaned ←
    (if Pd.has_column Codigo df_cleaned && Pd.has_column Categoria df_cleaned then
       a ← Pd.getcol Codigo df_cleaned; ma ← Pd.ne_empty a;
       b ← Pd.getcol Categoria df_cleaned; mb ← Pd.ne_empty b;
       Some (Pd.filter_rows (zip_with andb ma mb) df_cleaned)
     else Some df_cleaned);
  (* 256 *)
  Some (Pd.loc_present final_cols_order df_cleaned).

(** Lines 139-259, once the header is known. *)
Definition stock_after_header (content : list str) (header_row_index : nat)
  (detected_header_names : list str) : option DataFrame :=
  let expected_field_count := length detected_header_names in
  let data_rows := fst (stock_data_rows content header_row_index expected_field_count) in
  match data_rows with
  | [] => Some (Pd.empty final_cols_order)
  | _ =>
      df_raw_data ← Pd.of_rows data_rows detected_header_names;
      stock_clean df_raw_data
  end.

(** Lines 119-136: the full header is looked for in the whole window, and
    only then the header without [STOCK_MINIMO]. *)
Definition stock_find_header (content : list str) : option (nat * list str) :=
  match find_header_row content expected_header_full default_search_range with
  | Some r => Some r
  | None => find_header_row content expected_header_no_min default_search_range
  end.

(** [parse_stock_visma], on the decoded text of the uploaded file.  The
    result [None] is the [None] of the source (no header, or an
    exception). *)
Definition parse_stock_visma (text : str) : option DataFrame :=
  let content := Py.readlines text in
  match stock_find_header content with
  | None => None
  | Some (header_row_index, detected_header_names) =>
      stock_after_header content header_row_index detected_header_names
  end.

(** ** [parse_eco_visma] *)

Definition expected_header_simple : list str := [Categoria; Invierno; Verano].

Definition Movilizacion : str := u "Movilizacion".
Definition Costos_Directos : str := u "Costos Directos".
Definition Costos_Indirectos_Generales : str := u "Costos Indirectos/Generales".
Definition Utilidades : str := u "Utilidades".

Definition expected_internal_keys_eco : list str :=
  [Movilizacion; Costos_Directos; Costos_Indirectos_Generales; Utilidades].

(** The dictionary of the two seasons. *)
Record eco_data := mk_eco {
  invierno : gmap (list N) float;
  verano : gmap (list N) float
}.

Definition zeroed_season : gmap (list N) float :=
  list_to_map (map (fun key => (key, Float.zero)) expected_internal_keys_eco).

Definition zeroed_eco_data_structure : eco_data :=
  mk_eco zeroed_season zeroed_season.

Definition category_mapping_to_internal_key : gmap (list N) (list N) :=
  list_to_map
    [(u "Movilizacion", Movilizacion);
     (u "CostosDirectos", Costos_Directos);
     (u "CostosIndirectosGenerales", Costos_Indirectos_Generales);
     (u "Utilidades", Utilidades)].

(** Lines 304-326.  A warning is the line number with the reason. *)
Inductive eco_warning :=
| WrongFieldCount (line_number : nat) (found : nat)
| NotCsv (line_number : nat).

Fixpoint eco_read_rows (i : nat) (lines : list str) (expected_field_count : nat)
  : list (list str) * list eco_warning :=
  match lines with
  | [] => ([], [])
  | l :: rest =>
      let line := Py.strip l in
      let '(data_rows, warnings) := eco_read_rows (S i) rest expected_field_count in
      if Py.eqb line [] then (data_rows, warnings)
      else
        match Csv.next_row line with
        | Some fields =>
            if negb (Nat.eqb (length fields) expected_field_count)
            then (data_rows, WrongFieldCount (i + 1) (length fields) :: warnings)
            else (fields :: data_rows, warnings)
        | None => (data_rows, NotCsv (i + 1) :: warnings)
        end
  end.

Definition eco_data_rows (content : list str) (header_row_index : nat)
  (expected_field_count : nat) : list (list str) * list eco_warning :=
  eco_read_rows (S header_row_index) (drop (S header_row_index) content)
    expected_field_count.

(** Lines 377-384: the body of the loop over the rows. *)
Definition eco_add_row (df_cleaned : DataFrame) (parsed_costs : eco_data) (i : nat)
  : option eco_data :=
  cat ← Pd.cell_at df_cleaned Categoria i;
  inv ← Pd.cell_at df_cleaned Invierno i;
  ver ← Pd.cell_at df_cleaned Verano i;
  match cat, inv, ver with
  | CStr category_name_in_file, CNum a, CNum b =>
      match category_mapping_to_internal_key !! category_name_in_file with
      | Some internal_category_key =>
          if Py.in_list internal_category_key expected_internal_keys_eco then
            x ← invierno parsed_costs !! internal_category_key;
            y ← verano parsed_costs !! internal_category_key;
            Some (mk_eco (<[internal_category_key := Float.add x a]> (invierno parsed_costs))
                         (<[internal_category_key := Float.add y b]> (verano parsed_costs)))
          else Some parsed_costs
      | None => Some parsed_costs
      end
  | _, _, _ => None
  end.

Fixpoint eco_iterrows (df_cleaned : DataFrame) (rows : list nat)
  (parsed_costs : eco_data) : option eco_data :=
  match rows with
  | [] => Some parsed_costs
  | i :: r => match eco_add_row df_cleaned parsed_costs i with
              | Some p => eco_iterrows df_cleaned r p
              | None => None
              end
  end.

(** Lines 337-393. *)
Definition eco_clean (df_raw_data : DataFrame) : option eco_data :=
  let df_cleaned := df_raw_data in
  if negb (Pd.has_column Categoria df_cleaned) then Some zeroed_eco_data_structure
  else
    s ← Pd.getcol Categoria df_cleaned; s' ← Pd.strip_series s;
    let df_cleaned := Pd.setcol Categoria s' df_cleaned in
    df_cleaned ← Pd.for_each [Invierno; Verano]
      (fun col df =>
         if Pd.has_column col df then
           s ← Pd.getcol col df; s' ← Pd.apply_safe_float_parse s;
           Some (Pd.setcol col s' df)
         else Some (Pd.set_num col Float.zero df)) df_cleaned;
    let parsed_costs := mk_eco zeroed_season zeroed_season in
    if negb (Pd.is_empty df_cleaned) then
      if forallb (fun col => Pd.has_column col df_cleaned) [Categoria; Invierno; Verano] then
        eco_iterrows df_cleaned (seq 0 (nrows df_cleaned)) parsed_costs
      else Some zeroed_eco_data_structure
    else Some parsed_costs.

(** [parse_eco_visma], on the decoded text of the uploaded file. *)
Definition parse_eco_visma (text : str) : option eco_data :=
  let content := Py.readlines text in
  match find_header_row content expected_header_simple default_search_range with
  | None => None
  | Some (header_row_index, detected_header_names) =>
      let expected_field_count := length detected_header_names in
      let data_rows := fst (eco_data_rows content header_row_index expected_field_count) in
      match data_rows with
      | [] => Some zeroed_eco_data_structure
      | _ =>
          df_raw_data ← Pd.of_rows data_rows detected_header_names;
          eco_clean df_raw_data
      end
  end.

(** ** [parse_fuel_log] *)

Definition Fecha : str := u "Fecha".
Definition Equipo : str := u "Equipo".
Definition CodigoCombustible : str := u "CodigoCombustible".
Definition LtsIngreso : str := u "LtsIngreso".
Definition LtsEgreso : str := u "LtsEgreso".
Definition HsKm : str := u "HsKm".
Definition Comentarios : str := u "Comentarios".
Definition CostoUnitarioLt : str := u "CostoUnitarioLt".
Definition Equipo_Int : str := u "Equipo/Int.".
Definition Lts_Ingreso : str := u "Lts Ingreso".
Definition Lts_Egreso : str := u "Lts Egreso".
Definition Tipo_de_Comb : str := u "Tipo de Comb.".
Definition Hs_Km_Numeric : str := u "Hs/Km_Numeric".
Definition Costo_Unitario_Lt : str := u "Costo Unitario Lt".
Definition Costo_Total_Egreso : str := u "Costo Total Egreso".
Definition GASOIL : str := u "GASOIL".
Definition NAFTA : str := u "NAFTA".
Definition Desconocido : str := u "Desconocido".

Definition empty_fuel_cols_template : list str :=
  [Fecha; Equipo_Int; Codigo; Lts_Ingreso; Lts_Egreso; HsKm; Comentarios;
   Tipo_de_Comb; Hs_Km_Numeric; Costo_Unitario_Lt; Costo_Total_Egreso].

Definition expected_data_header_simple_v2 : list str :=
  [Fecha; Equipo; CodigoCombustible; LtsIngreso; LtsEgreso; HsKm; Comentarios;
   CostoUnitarioLt].

Definition internal_standard_cols_ordered : list str :=
  [Fecha; Equipo_Int; Codigo; Lts_Ingreso; Lts_Egreso; HsKm; Hs_Km_Numeric;
   Tipo_de_Comb; Comentarios; Costo_Unitario_Lt; Costo_Total_Egreso].

(** The variables of the scan of lines 419-477. *)
Record fuel_setup := mk_setup {
  saldo_gasoil : float;
  saldo_nafta : float;
  fuel_type_mapping : gmap (list N) (list N);
  data_header_index : option nat        (* [None] for -1 *)
}.

Definition fuel_setup_init : fuel_setup :=
  mk_setup Float.zero Float.zero ∅ None.

(** Lines 454-470: a line whose first field is [SETUP]. *)
Definition fuel_setup_line (line_fields_clean : list str) (s : fuel_setup)
  : fuel_setup :=
  if Nat.ltb 1 (length line_fields_clean) then
    let setup_type := Py.upper (nth 1 line_fields_clean []) in
    if Py.eqb setup_type (u "SALDO INICIAL GASOIL") then
      if Nat.ltb 2 (length line_fields_clean) then
        mk_setup (safe_float_parse (Some (nth 2 line_fields_clean [])))
          (saldo_nafta s) (fuel_type_mapping s) (data_header_index s)
      else s
    else if Py.eqb setup_type (u "SALDO INICIAL NAFTA") then
      if Nat.ltb 2 (length line_fields_clean) then
        mk_setup (saldo_gasoil s)
          (safe_float_parse (Some (nth 2 line_fields_clean [])))
          (fuel_type_mapping s) (data_header_index s)
      else s
    else if Py.eqb setup_type (u "MAPEO CODIGO") then
      if Nat.ltb 3 (length line_fields_clean) then
        let code := nth 2 line_fields_clean [] in
        let fuel_type := nth 3 line_fields_clean [] in
        if negb (Py.eqb code []) && negb (Py.eqb fuel_type []) then
          mk_setup (saldo_gasoil s) (saldo_nafta s)
            (<[Py.strip code := Py.strip fuel_type]> (fuel_type_mapping s))
            (data_header_index s)
        else s
      else s
    else s
  else s.

(** Lines 431-477: the scan for [SETUP] lines and for the data header,
    which ends it. *)
Fixpoint fuel_scan (i : nat) (lines : list str) (s : fuel_setup) : fuel_setup :=
  match lines with
  | [] => s
  | line :: rest =>
      let line_strip := Py.strip line in
      if Py.eqb line_strip [] then fuel_scan (S i) rest s
      else
        match Csv.next_row line_strip with
        | None => fuel_scan (S i) rest s
        | Some line_fields =>
            let line_fields :=
              match line_fields with
              | f0 :: r => if Nat.eqb i 0 && Py.startswith BOM f0 then tl f0 :: r
                           else line_fields
              | [] => line_fields
              end in
            let line_fields_clean := map Py.strip line_fields in
            if match line_fields_clean with
               | f0 :: _ => Py.eqb (Py.upper f0) (u "SETUP")
               | [] => false
               end
            then fuel_scan (S i) rest (fuel_setup_line line_fields_clean s)
            else if match data_header_index s with None => true | Some _ => false end
                    && Py.list_eqb line_fields_clean expected_data_header_simple_v2
            then mk_setup (saldo_gasoil s) (saldo_nafta s) (fuel_type_mapping s) (Some i)
            else fuel_scan (S i) rest s
        end
  end.

(** Lines 428-477 on the lines of the file: the scan covers the first 100
    lines at most. *)
Definition fuel_read_setup (content : list str) : fuel_setup :=
  let search_range_setup := Nat.min (length content) 100 in
  fuel_scan 0 (take search_range_setup content) fuel_setup_init.

(** The dictionary [{'GASOIL': saldo_gasoil, 'NAFTA': saldo_nafta}]. *)
Definition initial_stock (s : fuel_setup) : gmap (list N) float :=
  <[NAFTA := saldo_nafta s]> (<[GASOIL := saldo_gasoil s]> ∅).

Definition standard_string_cols : list str :=
  [Equipo; CodigoCombustible; HsKm; Comentarios].
Definition standard_numeric_cols_to_parse : list str :=
  [LtsIngreso; LtsEgreso; CostoUnitarioLt].
Definition fuel_numeric_final : list str :=
  [Lts_Ingreso; Lts_Egreso; Hs_Km_Numeric; Costo_Unitario_Lt; Costo_Total_Egreso].

Definition rename_map_to_internal : gmap (list N) (list N) :=
  list_to_map
    [(Equipo, Equipo_Int); (CodigoCombustible, Codigo); (LtsIngreso, Lts_Ingreso);
     (LtsEgreso, Lts_Egreso); (CostoUnitarioLt, Costo_Unitario_Lt)].

(** What [pd.read_csv] returns: the labels and the rows, a cell being a
    string or missing (NaN). *)
Record RawFrame := mk_raw {
  raw_labels : list str;
  raw_rows : list (list (option str))
}.

Definition frame_of_raw (r : RawFrame) : DataFrame :=
  mk_frame (length (raw_rows r))
    (map (fun '(c, l) => (c, ObjS l))
       (Pd.columns_of_rows None 0 (raw_labels r) (raw_rows r))).

Section FuelLog.

(** [pd.read_csv(io.StringIO(block), sep=',', header=0, dtype=str,
    keep_default_na=False, low_memory=False)]; [None] is an exception. *)
Variable read_csv : str -> option RawFrame.

(** [pd.to_datetime(column, errors='coerce', dayfirst=True)]:
    [to_datetime column i] is the element of index [i] of the result, a
    time stamp in nanoseconds or [None] for NaT. *)
Variable to_datetime : list (option str) -> nat -> option Z.

Definition to_datetime_series (s : series) : option series :=
  match s with
  | ObjS l => Some (TimeS (map (to_datetime l) (seq 0 (length l))))
  | _ => None
  end.

(** Lines 518-522: with as many columns as the expected header, the
    columns take its names, position by position. *)
Definition fuel_align_columns (df : DataFrame) : DataFrame :=
  if Nat.eqb (length (Pd.columns df)) (length expected_data_header_simple_v2)
  then Pd.rename (Pd.dict_of_zip (Pd.columns df) expected_data_header_simple_v2) df
  else df.

(** Lines 530-580: the date, the text and the numeric columns, and the
    derived columns. *)
Definition fuel_convert (df : DataFrame) (mapping : gmap (list N) (list N))
  : option DataFrame :=
  (* 530-534 *)
  df ← (if Pd.has_column Fecha df then
          s ← Pd.getcol Fecha df; t ← to_datetime_series s;
          Some (Pd.setcol Fecha t df)
        else Some (Pd.set_nat Fecha df));
  (* 537-543 *)
  df ← Pd.for_each standard_string_cols
    (fun col df =>
       if Pd.has_column col df then
         s ← Pd.getcol col df; s' ← Pd.strip_series s; Some (Pd.setcol col s' df)
       else Some (Pd.set_str col [] df)) df;
  (* 547-553 *)
  df ← Pd.for_each standard_numeric_cols_to_parse
    (fun col df =>
       if Pd.has_column col df then
         s ← Pd.getcol col df; s' ← Pd.apply_safe_float_parse s;
         Some (Pd.setcol col s' df)
       else Some (Pd.set_num col Float.zero df)) df;
  (* 557-562 *)
  h ← Pd.getcol HsKm df; h' ← Pd.apply_safe_float_parse h;
  let df := Pd.setcol Hs_Km_Numeric h' df in
  k ← Pd.getcol Hs_Km_Numeric df; k' ← Pd.to_numeric_fillna0 k;
  let df := Pd.setcol Hs_Km_Numeric k' df in
  (* 566-570 *)
  df ← (if Pd.has_column LtsEgreso df && Pd.has_column CostoUnitarioLt df then
          a ← Pd.getcol LtsEgreso df; b ← Pd.getcol CostoUnitarioLt df;
          v ← Pd.mul_fillna0 a b;
          Some (Pd.setcol Costo_Total_Egreso v df)
        else Some (Pd.set_num Costo_Total_Egreso Float.zero df));
  (* 574-580 *)
  if Pd.has_column CodigoCombustible df then
    c ← Pd.getcol CodigoCombustible df; c' ← Pd.strip_series c;
    let df := Pd.setcol CodigoCombustible c' df in
    c ← Pd.getcol CodigoCombustible df;
    t ← Pd.map_dict mapping Desconocido c;
    Some (Pd.setcol Tipo_de_Comb t df)
  else Some (Pd.set_str Tipo_de_Comb Desconocido df).

(** Lines 585-613: the rows with a date, an equipment and a fuel code. *)
Definition fuel_filter (df : DataFrame) : option DataFrame :=
  let df_filtered := df in
  df_filtered ←
    (let d := if Pd.has_column Fecha df_filtered then df_filtered
              else Pd.set_nat Fecha df_filtered in
     s ← Pd.getcol Fecha d; m ← Pd.notna s; Some (Pd.filter_rows m d));
  df_filtered ←
    (let d := if Pd.has_column Equipo df_filtered then df_filtered
              else Pd.set_str Equipo [] df_filtered in
     s ← Pd.getcol Equipo d; m ← Pd.strip_ne_empty s; Some (Pd.filter_rows m d));
  let d := if Pd.has_column CodigoCombustible df_filtered then df_filtered
           else Pd.set_str CodigoCombustible [] df_filtered in
  s ← Pd.getcol CodigoCombustible d; m ← Pd.strip_ne_empty s;
  Some (Pd.filter_rows m d).

(** Lines 618-652: the internal names, the columns still missing, the
    final order. *)
Definition fuel_finalize (df : DataFrame) : option DataFrame :=
  (* 618-630 *)
  let cols_to_rename_actual :=
    filter (fun kv => Pd.has_column (fst kv) df = true) rename_map_to_internal in
  let df := Pd.rename cols_to_rename_actual df in
  (* 641-648 *)
  df ← Pd.for_each internal_standard_cols_ordered
    (fun col df =>
       if Pd.has_column col df then Some df
       else if Py.in_list col fuel_numeric_final then Some (Pd.set_num col Float.zero df)
       else if Py.eqb col Fecha then Some (Pd.set_nat col df)
       else Some (Pd.set_str col [] df)) df;
  (* 652 *)
  Some (Pd.loc_present internal_standard_cols_ordered df).

(** Lines 530-652. *)
Definition fuel_normalize (df : DataFrame) (mapping : gmap (list N) (list N))
  : option DataFrame :=
  df ← fuel_convert df mapping; df ← fuel_filter df; fuel_finalize df.

(** Lines 507-652, on the frame read by pandas. *)
Definition fuel_clean (df_raw : DataFrame) (mapping : gmap (list N) (list N))
  : option DataFrame :=
  fuel_normalize (fuel_align_columns df_raw) mapping.

(** [parse_fuel_log] on the decoded text of the uploaded file: the frame
    with the dictionary of the initial balances, or [None]. *)
Definition parse_fuel_log (text : str)
  : option (DataFrame * gmap (list N) float) :=
  let content := Py.readlines text in
  let s := fuel_read_setup content in
  match data_header_index s with
  | None => Some (Pd.empty empty_fuel_cols_template, initial_stock s)
  | Some idx =>
      let data_block_string := concat (drop idx content) in
      match read_csv data_block_string with
      | None => Some (Pd.empty empty_fuel_cols_template, initial_stock s)
      | Some raw =>
          let df := frame_of_raw raw in
          if Pd.is_empty df then
            Some (Pd.empty empty_fuel_cols_template, initial_stock s)
          else
            match fuel_clean df (fuel_type_mapping s) with
            | Some final_df_ordered => Some (final_df_ordered, initial_stock s)
            | None => None
            end
      end
  end.

End FuelLog.

(** ** The specification's reference definitions

    The definitions of this part follow the words of the specification,
    not the source; the theorems compare them with the embedding. *)

Module Spec.

(** *** NumericCoercer: the five rules *)

Definition comma : N := 44.
Definition dot : N := 46.
Definition dollar : N := 36.

Definition remove_char (c : N) (s : str) : str :=
  List.filter (fun x => negb (x =? c)%N) s.

(** The separator that occurs last in the string. *)
Definition last_separator (s : str) : option N :=
  List.find (fun x => (x =? comma)%N || (x =? dot)%N) (rev s).

(** Rule 3.  With both separators the last one is the decimal point and
    the other is removed; a lone comma is the decimal point; a lone dot
    stays. *)
Definition decimal_point (s : str) : str :=
  let comma_to_dot := map (fun x => if (x =? comma)%N then dot else x) in
  if Py.contains comma s && Py.contains dot s then
    match last_separator s with
    | Some c => if (c =? comma)%N then comma_to_dot (remove_char dot s)
                else remove_char comma s
    | None => s
    end
  else if Py.contains comma s then comma_to_dot s
  else s.

(** Rules 1 to 5, for a given reading [strip_whitespace] of "strip
    whitespace" in rule 2. *)
Definition coerce (strip_whitespace : str -> str) (text : option str) : float :=
  match text with
  | None => Float.zero
  | Some t =>
      let trimmed := Py.strip t in
      if Py.eqb trimmed [] || Py.in_list trimmed sentinels then Float.zero
      else
        let cleaned := remove_char dollar (strip_whitespace t) in
        let number := decimal_point cleaned in
        if Py.eqb number [] || Py.eqb number (u "+") || Py.eqb number (u "-")
        then Float.zero
        else match Float.of_str number with
             | Some x => x
             | None => Float.zero
             end
  end.

(** Two readings of rule 2: every white space character is removed, or
    the text is trimmed. *)
Definition remove_all_whitespace (s : str) : str :=
  List.filter (fun x => negb (Py.isspace x)) s.
Definition trim (s : str) : str := Py.strip s.

(** What the source does: the text is trimmed and the space characters
    (U+0020) left inside are removed; other white space inside stays. *)
Definition trim_and_remove_spaces (s : str) : str := remove_char 32 (Py.strip s).

(** *** HeaderLocator *)

(** The trimmed fields of a line; none for a blank line or a line that
    does not tokenize. *)
Definition line_fields (line : str) : option (list str) :=
  let line_strip := Py.strip line in
  if Py.eqb line_strip [] then None
  else option_map cleaned_fields (Csv.next_row line_strip).

(** A line is the header [expected]. *)
Definition is_header (expected : list str) (line : str) : Prop :=
  line_fields line = Some expected.

Fixpoint locate_from (i : nat) (lines : list str) (candidates : list (list str))
  : option (nat * list str) :=
  match lines with
  | [] => None
  | line :: rest =>
      match line_fields line with
      | Some fields =>
          match List.find (Py.list_eqb fields) candidates with
          | Some c => Some (i, c)
          | None => locate_from (S i) rest candidates
          end
      | None => locate_from (S i) rest candidates
      end
  end.

(** [locate(lines, candidates, window)]: the first line of the window
    whose fields equal some candidate, with the first such candidate. *)
Definition locate (lines : list str) (candidates : list (list str))
  (window : nat) : option (nat * list str) :=
  locate_from 0 (take window lines) candidates.

(** Line [i] is the first line of the window that is the header
    [expected]; no line of the window is. *)
Definition first_header (lines : list str) (expected : list str)
  (window i : nat) : Prop :=
  (i < window)%nat
  /\ (exists line, lines !! i = Some line /\ is_header expected line)
  /\ (forall j line, (j < i)%nat -> lines !! j = Some line ->
                     ~ is_header expected line).

Definition no_header (lines : list str) (expected : list str) (window : nat)
  : Prop :=
  forall j line, (j < window)%nat -> lines !! j = Some line ->
                 ~ is_header expected line.

(** *** RowMaterializer *)

(** The tokens of a data line; none for a blank line or a line that does
    not tokenize. *)
Definition line_tokens (line : str) : option (list str) :=
  let l := Py.strip line in
  if Py.eqb l [] then None else Csv.next_row l.

(** A row of exactly [field_count] fields: the tokens followed by empty
    strings, cut after [field_count] fields. *)
Definition fit (field_count : nat) (tokens : list str) : list str :=
  take field_count (tokens ++ repeat [] field_count).

(** [materialize(lines_after_header, field_count)] *)
Definition materialize (lines_after_header : list str) (field_count : nat)
  : list (list str) :=
  map (fit field_count) (omap line_tokens lines_after_header).

(** The rows of the strict reading, for the budget file: the token lists
    of exactly [field_count] tokens, unchanged. *)
Definition materialize_exact (lines_after_header : list str) (field_count : nat)
  : list (list str) :=
  List.filter (fun t => Nat.eqb (length t) field_count)
    (omap line_tokens lines_after_header).

(** A non-blank line that does not tokenize. *)
Definition bad_line (line : str) : bool :=
  negb (Py.eqb (Py.strip line) []) &&
  match Csv.next_row (Py.strip line) with Some _ => false | None => true end.

(** The line numbers (from [first]) of the lines that do not tokenize. *)
Fixpoint bad_line_numbers (first : nat) (lines : list str) : list nat :=
  match lines with
  | [] => []
  | l :: rest =>
      if bad_line l then first :: bad_line_numbers (S first) rest
      else bad_line_numbers (S first) rest
  end.

End Spec.

(** ** The tables, row by row

    The result of each parser as a function of the materialized rows: the
    valid rows, each normalized on its own. *)

Definition field (k : nat) (row : list str) : str := nth k row [].

Definition coerce_field (k : nat) (row : list str) : float :=
  safe_float_parse (Some (field k row)).

(** Stock: code and category are not empty once trimmed. *)
Definition stock_valid (row : list str) : bool :=
  negb (Py.eqb (Py.strip (field 0 row)) []) && negb (Py.eqb (Py.strip (field 2 row)) []).

Definition stock_total (row : list str) : float :=
  Float.mul (Float.fillna0 (coerce_field 3 row)) (Float.fillna0 (coerce_field 4 row)).

Definition stock_table (with_min : bool) (data_rows : list (list str)) : DataFrame :=
  match data_rows with
  | [] => Pd.empty final_cols_order
  | _ =>
      let kept := List.filter stock_valid data_rows in
      mk_frame (length kept)
        [(Codigo, StrS (map (fun r => Py.strip (field 0 r)) kept));
         (Producto, StrS (map (fun r => Py.strip (field 1 r)) kept));
         (Categoria, StrS (map (fun r => Py.strip (field 2 r)) kept));
         (CantidadActual, NumS (map (coerce_field 3) kept));
         (CostoUnitario, NumS (map (coerce_field 4) kept));
         (Valor_Total_Item, NumS (map stock_total kept));
         (Ubicacion, StrS (map (fun r => Py.strip (field 5 r)) kept));
         (STOCK_MINIMO,
           NumS (map (fun r => if with_min then coerce_field 6 r else Float.zero) kept))]
  end.

(** The record of a valid row. *)
Definition stock_record (with_min : bool) (r : list str) : list (str * option cell) :=
  [(Codigo, Some (CStr (Py.strip (field 0 r))));
   (Producto, Some (CStr (Py.strip (field 1 r))));
   (Categoria, Some (CStr (Py.strip (field 2 r))));
   (CantidadActual, Some (CNum (coerce_field 3 r)));
   (CostoUnitario, Some (CNum (coerce_field 4 r)));
   (Valor_Total_Item, Some (CNum (stock_total r)));
   (Ubicacion, Some (CStr (Py.strip (field 5 r))));
   (STOCK_MINIMO, Some (CNum (if with_min then coerce_field 6 r else Float.zero)))].

(** The labels of the cells that record [i] of a frame has. *)
Definition record_labels (df : DataFrame) (i : nat) : list str :=
  map fst
    (List.filter (fun lc => match snd lc with Some _ => true | None => false end)
       (Pd.record df i)).

(** The rows materialized below the header found. *)
Definition stock_rows (content : list str) (idx : nat) (names : list str)
  : list (list str) :=
  fst (stock_data_rows content idx (length names)).

(** Budget: the sum, in the order of the file, of the coerced values of the
    rows whose trimmed label maps to [key]. *)
Definition eco_maps_to (key : str) (row : list str) : bool :=
  match category_mapping_to_internal_key !! Py.strip (field 0 row) with
  | Some k => Py.eqb k key
  | None => false
  end.

Definition eco_sum (k : nat) (key : str) (data_rows : list (list str)) : float :=
  fold_left Float.add (map (coerce_field k) (List.filter (eco_maps_to key) data_rows))
    Float.zero.

Definition eco_season (k : nat) (data_rows : list (list str))
  : gmap (list N) float :=
  list_to_map (map (fun key => (key, eco_sum k key data_rows)) expected_internal_keys_eco).

(** The 4 x 2 grid of the sums. *)
Definition eco_grid (data_rows : list (list str)) : eco_data :=
  mk_eco (eco_season 1 data_rows) (eco_season 2 data_rows).

(** The state of the loop of lines 376-384 after the rows [done]: each
    cell of the grid holds the sum over these rows, and the grid has no
    other key. *)
Definition eco_invariant (p : eco_data) (done : list (list str)) : Prop :=
  forall key,
    (key ∈ expected_internal_keys_eco ->
     invierno p !! key = Some (eco_sum 1 key done)
     /\ verano p !! key = Some (eco_sum 2 key done))
    /\ (key ∉ expected_internal_keys_eco ->
        invierno p !! key = None /\ verano p !! key = None).

Definition eco_rows (content : list str) (idx : nat) (names : list str)
  : list (list str) :=
  fst (eco_data_rows content idx (length names)).

(** Three filters in a row. *)
Definition keep3 {A} (m1 m2 m3 : list bool) (l : list A) : list A :=
  Pd.select m3 (Pd.select m2 (Pd.select m1 l)).

(** Fuel log: a row read by pandas with its index. *)
Definition raw_field (k : nat) (row : list (option str)) : option str :=
  nth k row None.

Definition raw_text (k : nat) (row : list (option str)) : str :=
  Py.strip (Pd.astype_str (raw_field k row)).

Section FuelTable.

Variable to_datetime : list (option str) -> nat -> option Z.
Variable mapping : gmap (list N) (list N).
Variable rows : list (list (option str)).

Definition fuel_date (ir : nat * list (option str)) : option Z :=
  to_datetime (map (raw_field 0) rows) (fst ir).

(** The date parsed, equipment and fuel code not empty once trimmed. *)
Definition fuel_valid (ir : nat * list (option str)) : bool :=
  match fuel_date ir with Some _ => true | None => false end
  && negb (Py.eqb (raw_text 1 (snd ir)) [])
  && negb (Py.eqb (raw_text 2 (snd ir)) []).

Definition fuel_category (r : list (option str)) : str :=
  match mapping !! raw_text 2 r with
  | Some v => v
  | None => Desconocido
  end.

Definition fuel_total (r : list (option str)) : float :=
  Float.mul (Float.fillna0 (safe_float_parse (raw_field 4 r)))
            (Float.fillna0 (safe_float_parse (raw_field 7 r))).

Definition fuel_table : DataFrame :=
  let kept := List.filter fuel_valid (zip (seq 0 (length rows)) rows) in
  mk_frame (length kept)
    [(Fecha, TimeS (map fuel_date kept));
     (Equipo_Int, StrS (map (fun ir => raw_text 1 (snd ir)) kept));
     (Codigo, StrS (map (fun ir => raw_text 2 (snd ir)) kept));
     (Lts_Ingreso, NumS (map (fun ir => safe_float_parse (raw_field 3 (snd ir))) kept));
     (Lts_Egreso, NumS (map (fun ir => safe_float_parse (raw_field 4 (snd ir))) kept));
     (HsKm, StrS (map (fun ir => raw_text 5 (snd ir)) kept));
     (Hs_Km_Numeric,
       NumS (map (fun ir => Float.fillna0 (safe_float_parse (Some (raw_text 5 (snd ir))))) kept));
     (Tipo_de_Comb, StrS (map (fun ir => fuel_category (snd ir)) kept));
     (Comentarios, StrS (map (fun ir => raw_text 6 (snd ir)) kept));
     (Costo_Unitario_Lt, NumS (map (fun ir => safe_float_parse (raw_field 7 (snd ir))) kept));
     (Costo_Total_Egreso, NumS (map (fun ir => fuel_total (snd ir)) kept))].

(** The record of a valid row. *)
Definition fuel_record (ir : nat * list (option str)) : list (str * option cell) :=
  let r := snd ir in
  [(Fecha, Some (CTime (fuel_date ir)));
   (Equipo_Int, Some (CStr (raw_text 1 r)));
   (Codigo, Some (CStr (raw_text 2 r)));
   (Lts_Ingreso, Some (CNum (safe_float_parse (raw_field 3 r))));
   (Lts_Egreso, Some (CNum (safe_float_parse (raw_field 4 r))));
   (HsKm, Some (CStr (raw_text 5 r)));
   (Hs_Km_Numeric, Some (CNum (Float.fillna0 (safe_float_parse (Some (raw_text 5 r))))));
   (Tipo_de_Comb, Some (CStr (fuel_category r)));
   (Comentarios, Some (CStr (raw_text 6 r)));
   (Costo_Unitario_Lt, Some (CNum (safe_float_parse (raw_field 7 r))));
   (Costo_Total_Egreso, Some (CNum (fuel_total r)))].

End FuelTable.

(** The block below the data header of the fuel log is read by pandas
    into eight columns with distinct labels, whenever it is read. *)
Definition fuel_read_regular (read_csv : str -> option RawFrame) (text : str) : Prop :=
  forall idx raw,
    data_header_index (fuel_read_setup (Py.readlines text)) = Some idx ->
    read_csv (concat (drop idx (Py.readlines text))) = Some raw ->
    length (raw_labels raw) = 8%nat /\ NoDup (raw_labels raw).

(** The table returned for the rows read: the empty table of the template
    when there is no row. *)
Definition fuel_result (to_datetime : list (option str) -> nat -> option Z)
  (mapping : gmap (list N) (list N)) (rows : list (list (option str))) : DataFrame :=
  match rows with
  | [] => Pd.empty empty_fuel_cols_template
  | _ => fuel_table to_datetime mapping rows
  end.

(** ** A reader and a date parser for the examples

    The theorems on the fuel log hold for every [read_csv] and
    [to_datetime]; the examples run the parser with the two below.  The
    reader takes a block whose rows all have as many fields as its header
    line; the date parser takes day-first dates [dd-mm-yyyy]. *)

Module Sample.

Definition read_csv (block : str) : option RawFrame :=
  match omap Spec.line_tokens (Py.readlines block) with
  | [] => None
  | header :: data =>
      if forallb (fun r => Nat.eqb (length r) (length header)) data
      then Some (mk_raw header (map (map Some) data))
      else None
  end.

Definition days_from_civil (y m d : Z) : Z :=
  let y := if m <=? 2 then y - 1 else y in
  let era := y / 400 in
  let yoe := y - era * 400 in
  let doy := (153 * (if 2 <? m then m - 3 else m + 9) + 2) / 5 + d - 1 in
  let doe := yoe * 365 + yoe / 4 - yoe / 100 + doy in
  era * 146097 + doe - 719468.

Definition days_in_month (y m : Z) : Z :=
  if m =? 2 then
    if ((y mod 4 =? 0) && negb (y mod 100 =? 0)) || (y mod 400 =? 0) then 29 else 28
  else if (m =? 4) || (m =? 6) || (m =? 9) || (m =? 11) then 30 else 31.

Definition parse_date (s : str) : option Z :=
  match s with
  | [d1; d2; s1; m1; m2; s2; y1; y2; y3; y4] =>
      if forallb Float.isdigit [d1; d2; m1; m2; y1; y2; y3; y4]
         && (s1 =? 45)%N && (s2 =? 45)%N then
        let d := Float.digits_value [d1; d2] in
        let m := Float.digits_value [m1; m2] in
        let y := Float.digits_value [y1; y2; y3; y4] in
        if (1 <=? m) && (m <=? 12) && (1 <=? d) && (d <=? days_in_month y m)
        then Some (days_from_civil y m d * 86400 * 1000000000)
        else None
      else None
  | _ => None
  end.

Definition to_datetime (column : list (option str)) (i : nat) : option Z :=
  match nth i column None with
  | Some s => parse_date (Py.strip s)
  | None => None
  end.

End Sample.

(** ** Inputs of the examples *)

Definition tab : str := [9%N].
Definition nl : str := [10%N].

Definition stock_header_line : str :=
  u "Codigo,Producto,Categoria,CantidadActual,CostoUnitario,Ubicacion,STOCK_MINIMO".

Definition stock_header_line_no_min : str :=
  u "Codigo,Producto,Categoria,CantidadActual,CostoUnitario,Ubicacion".

Definition eco_header_line : str := u "Categoria,Invierno,Verano".

Definition fuel_header_line : str :=
  u "Fecha,Equipo,CodigoCombustible,LtsIngreso,LtsEgreso,HsKm,Comentarios,CostoUnitarioLt".

(** A budget file with a two-field row, and a fuel log whose data row has
    three fields. *)
Definition eco_short_row : list str :=
  [eco_header_line ++ nl; u "CostosDirectos,100" ++ nl].

Definition fuel_ragged : str :=
  fuel_header_line ++ nl ++ u "01-03-2025,MO-13-V,001" ++ nl.

(** The fuel log of the end-to-end example, and the same with a code that
    no [SETUP] line maps. *)
Definition fuel_example : str :=
  u "SETUP,Saldo Inicial GASOIL,500.00" ++ nl
  ++ u "SETUP,MAPEO CODIGO,001,GASOIL" ++ nl
  ++ fuel_header_line ++ nl
  ++ u "01-03-2025,MO-13-V,001,0.0,98.0,1778.0,Consumo normal,1200.50" ++ nl.

Definition fuel_example_unmapped : str :=
  u "SETUP,MAPEO CODIGO,001,GASOIL" ++ nl
  ++ fuel_header_line ++ nl
  ++ u "01-03-2025,MO-13-V,002,0.0,98.0,1778.0,Consumo normal,1200.50" ++ nl.

(** A fuel log without data header. *)
Definition fuel_no_header : str :=
  u "SETUP,Saldo Inicial GASOIL,500.00" ++ nl ++ u "junk" ++ nl.

(** Stock files: the example of the derived total, a quantity that is not
    a number, a row without code, and a short row. *)
Definition stock_example : str :=
  stock_header_line ++ nl ++ u "A1,bolt,parts,5.0,1250.50,yard,0" ++ nl.

Definition stock_nan_quantity : str :=
  stock_header_line ++ nl ++ u "A1,bolt,parts,NaN,2,yard,0" ++ nl.

Definition stock_empty_code : str :=
  stock_header_line ++ nl ++ u ",bolt,parts,5,2,yard,7" ++ nl
  ++ u "A1,bolt,parts,5,2,yard,7" ++ nl.

Definition stock_no_min_example : str :=
  stock_header_line_no_min ++ nl ++ u "A1,bolt,parts" ++ nl.

(** A budget file with two rows of direct costs and a row with a label
    that the lookup table does not have. *)
Definition eco_example : str :=
  eco_header_line ++ nl ++ u "CostosDirectos,100,1" ++ nl
  ++ u "Viaticos,7,7" ++ nl ++ u "CostosDirectos,50,2" ++ nl.

(** * Theorems *)

(** ** Strings *)

Lemma eqb_refl (a : str) : Py.eqb a a = true.
Proof. induction a as [|x a IH]; simpl; [done|]. by rewrite N.eqb_refl. Qed.

Lemma eqb_eq (a b : str) : Py.eqb a b = true <-> a = b.
Proof.
  split; [|intros ->; apply eqb_refl].
  revert b; induction a as [|x a IH]; intros [|y b]; simpl; try done.
  intros [Hxy Hab]%andb_true_iff. apply N.eqb_eq in Hxy. f_equal; auto.
Qed.

Lemma eqb_neq (a b : str) : Py.eqb a b = false <-> a <> b.
Proof.
  rewrite <- eqb_eq. destruct (Py.eqb a b); split; congruence.
Qed.

Lemma list_eqb_eq (a b : list str) : Py.list_eqb a b = true <-> a = b.
Proof.
  split.
  - revert b; induction a as [|x a IH]; intros [|y b]; simpl; try done.
    intros [Hxy Hab]%andb_true_iff. apply eqb_eq in Hxy. f_equal; auto.
  - intros ->. induction b as [|y b IH]; simpl; [done|].
    by rewrite eqb_refl.
Qed.

Lemma replace_nil (c : N) (s : str) : Py.replace c [] s = Spec.remove_char c s.
Proof.
  induction s as [|x s IH]; simpl; [done|].
  destruct (x =? c)%N; simpl; by rewrite IH.
Qed.

Lemma replace_one (c d : N) (s : str) :
  Py.replace c [d] s = map (fun x => if (x =? c)%N then d else x) s.
Proof.
  induction s as [|x s IH]; simpl; [done|].
  destruct (x =? c)%N; simpl; by rewrite IH.
Qed.

Lemma remove_char_comm (c d : N) (s : str) :
  Spec.remove_char c (Spec.remove_char d s) = Spec.remove_char d (Spec.remove_char c s).
Proof.
  unfold Spec.remove_char. induction s as [|x s IH]; simpl; [done|].
  destruct (x =? d)%N eqn:Hd, (x =? c)%N eqn:Hc; simpl;
    rewrite ?Hd, ?Hc; simpl; by rewrite IH.
Qed.

(** ** [rfind] and the last separator *)

Lemma rfind_from_app (c x : N) (s : str) (i found : Z) :
  Py.rfind_from c (s ++ [x]) i found =
  if (x =? c)%N then i + Z.of_nat (length s) else Py.rfind_from c s i found.
Proof.
  revert i found. induction s as [|y s IH]; intros i found; simpl.
  - destruct (x =? c)%N; [lia|done].
  - rewrite IH. destruct (x =? c)%N; [lia|done].
Qed.

Lemma rfind_app (c x : N) (s : str) :
  Py.rfind c (s ++ [x]) =
  if (x =? c)%N then Z.of_nat (length s) else Py.rfind c s.
Proof. unfold Py.rfind. rewrite rfind_from_app. by destruct (x =? c)%N. Qed.

Lemma rfind_bounds (c : N) (s : str) :
  -1 <= Py.rfind c s < Z.of_nat (length s).
Proof.
  induction s as [|x s IH] using rev_ind; [unfold Py.rfind; simpl; lia|].
  rewrite rfind_app, length_app. simpl. destruct (x =? c)%N; lia.
Qed.

Lemma rfind_contains (c : N) (s : str) :
  Py.contains c s = true -> 0 <= Py.rfind c s.
Proof.
  induction s as [|x s IH] using rev_ind; [done|].
  unfold Py.contains. rewrite existsb_app, rfind_app. simpl.
  rewrite N.eqb_sym. destruct (x =? c)%N; [lia|].
  rewrite !orb_false_r. exact IH.
Qed.

Lemma last_separator_app (s : str) (x : N) :
  Spec.last_separator (s ++ [x]) =
  if ((x =? Spec.comma) || (x =? Spec.dot))%N then Some x else Spec.last_separator s.
Proof. unfold Spec.last_separator. by rewrite rev_app_distr. Qed.

(** The comparison of the two [rfind] indices tells which separator occurs
    last. *)
Lemma rfind_last_separator (s : str) :
  match Spec.last_separator s with
  | Some c =>
      if (c =? Spec.comma)%N then Py.rfind Spec.dot s < Py.rfind Spec.comma s
      else Py.rfind Spec.comma s < Py.rfind Spec.dot s
  | None => Py.rfind Spec.comma s = -1 /\ Py.rfind Spec.dot s = -1
  end.
Proof.
  induction s as [|x s IH] using rev_ind; [done|].
  rewrite last_separator_app, !rfind_app.
  pose proof (rfind_bounds Spec.comma s). pose proof (rfind_bounds Spec.dot s).
  destruct (x =? Spec.comma)%N eqn:Hc; simpl.
  - apply N.eqb_eq in Hc. subst x. simpl. lia.
  - destruct (x =? Spec.dot)%N eqn:Hd; simpl; [rewrite Hc; lia|exact IH].
Qed.

Lemma decimal_point_rfind (s : str) :
  (if Py.contains (chr ",") s && Py.contains (chr ".") s then
     if Py.rfind (chr ",") s >? Py.rfind (chr ".") s then
       Py.replace (chr ",") [chr "."] (Py.replace (chr ".") [] s)
     else Py.replace (chr ",") [] s
   else if Py.contains (chr ",") s then Py.replace (chr ",") [chr "."] s
   else s) = Spec.decimal_point s.
Proof.
  unfold Spec.decimal_point.
  change (chr ",") with Spec.comma. change (chr ".") with Spec.dot.
  rewrite !replace_one, !replace_nil.
  destruct (Py.contains Spec.comma s) eqn:Hc; simpl; [|done].
  destruct (Py.contains Spec.dot s) eqn:Hd; simpl; [|done].
  pose proof (rfind_last_separator s) as H.
  pose proof (rfind_contains _ _ Hc). pose proof (rfind_contains _ _ Hd).
  destruct (Spec.last_separator s) as [c|]; [|lia].
  destruct (c =? Spec.comma)%N.
  - destruct (Z.gtb_spec (Py.rfind Spec.comma s) (Py.rfind Spec.dot s)); [done|lia].
  - destruct (Z.gtb_spec (Py.rfind Spec.comma s) (Py.rfind Spec.dot s)); [lia|done].
Qed.

(** ** C1: the numeric coercer *)

(** C1 (as stated, refuted).  The coercer is not the five-rule function
    under either reading of rule 2.  If "strip whitespace" removes every
    white space character, the text [1<TAB>5] should give 15.0: the source
    keeps the tab and the float parse fails, giving 0.0.  If it only trims,
    the text [1 5] should fail to parse and give 0.0: the source removes the
    space and returns 15.0. *)
Lemma C1_counterexample :
  safe_float_parse (Some (u "1" ++ tab ++ u "5")) = Float.zero
  /\ Spec.coerce Spec.remove_all_whitespace (Some (u "1" ++ tab ++ u "5")) = Float.dyadic 15 0
  /\ safe_float_parse (Some (u "1 5")) = Float.dyadic 15 0
  /\ Spec.coerce Spec.trim (Some (u "1 5")) = Float.zero
  /\ Float.dyadic 15 0 <> Float.zero.
Proof. repeat split; try (vm_compute; reflexivity). vm_compute. discriminate. Qed.

(** C1 (amended).  [safe_float_parse] is a total function equal to the
    five-rule reference definition in which rule 2 trims the text and
    removes the dollar signs and the space characters (U+0020) inside it,
    other white space inside the text being left in place: absent input,
    text empty after trimming and the sentinels give 0.0; with both
    separators the last one is the decimal point and the other is removed; a
    lone comma is the decimal point; an empty or bare-sign remainder gives
    0.0; a failed float parse gives 0.0.  In particular
    [1.250,50] and [1,250.50] give 1250.5 and the empty text, [-], [$] and
    the absent value give 0.0. *)
Theorem C1_safe_float_parse_five_rules :
  (forall text : option str,
     safe_float_parse text = Spec.coerce Spec.trim_and_remove_spaces text)
  /\ safe_float_parse (Some (u "1.250,50")) = Float.dyadic 2501 (-1)
  /\ safe_float_parse (Some (u "1,250.50")) = Float.dyadic 2501 (-1)
  /\ safe_float_parse (Some (u "")) = Float.zero
  /\ safe_float_parse (Some (u "-")) = Float.zero
  /\ safe_float_parse (Some (u "$")) = Float.zero
  /\ safe_float_parse None = Float.zero.
Proof.
  split; [|repeat split; vm_compute; reflexivity].
  intros [v|]; [|done].
  unfold safe_float_parse, Spec.coerce.
  assert (Hs : Py.in_list (Py.strip v) sentinels =
               Py.eqb (Py.strip v) [] || Py.in_list (Py.strip v) sentinels).
  { unfold Py.in_list, sentinels. simpl. change (u "") with (@nil N).
    by destruct (Py.eqb (Py.strip v) []). }
  rewrite <- Hs. destruct (Py.in_list (Py.strip v) sentinels); [done|].
  rewrite decimal_point_rfind, !replace_nil.
  unfold Spec.trim_and_remove_spaces.
  change (chr " ") with 32%N. change (chr "$") with Spec.dollar.
  rewrite (remove_char_comm Spec.dollar 32%N).
  set (number := Spec.decimal_point _).
  unfold Py.in_list. simpl. by rewrite orb_false_r, orb_assoc.
Qed.

(** ** C10: values that are not finite *)

(** C10.  The sentinel list holds the lower-case spelling [nan] only; the
    spellings [NaN], [NAN], [inf] and [Infinity] pass the cleaning and are
    accepted by the float parser, so that [safe_float_parse] returns a NaN,
    resp. the positive infinity.  The values reach the totals: a stock row
    with quantity [inf] has an infinite total value, and a budget row with
    winter value [NaN] makes the winter cell of its category a NaN. *)
Theorem C10_non_finite_values :
  safe_float_parse (Some (u "nan")) = Float.zero
  /\ safe_float_parse (Some (u "NaN")) = Float.nan
  /\ safe_float_parse (Some (u "NAN")) = Float.nan
  /\ safe_float_parse (Some (u "inf")) = Float.infinity
  /\ safe_float_parse (Some (u "Infinity")) = Float.infinity
  /\ (exists df,
        parse_stock_visma (stock_header_line ++ nl ++ u "A1,bolt,parts,inf,2,yard,0" ++ nl)
          = Some df
        /\ Pd.cell_at df CantidadActual 0 = Some (CNum Float.infinity)
        /\ Pd.cell_at df Valor_Total_Item 0 = Some (CNum Float.infinity))
  /\ (exists e,
        parse_eco_visma (eco_header_line ++ nl ++ u "CostosDirectos,NaN,1" ++ nl
                         ++ u "CostosDirectos,50,2" ++ nl) = Some e
        /\ invierno e !! Costos_Directos = Some Float.nan
        /\ verano e !! Costos_Directos = Some (Float.dyadic 3 0)).
Proof.
  repeat split; try (vm_compute; reflexivity).
  - eexists. split; [vm_compute; reflexivity|]. split; vm_compute; reflexivity.
  - eexists. split; [vm_compute; reflexivity|]. split; vm_compute; reflexivity.
Qed.

(** ** The header locator *)

Lemma header_match_line_fields (line : str) (e : list str) :
  header_match line e =
  match Spec.line_fields line with
  | Some f => if Py.list_eqb f e then Some e else None
  | None => None
  end.
Proof.
  unfold header_match, Spec.line_fields.
  destruct (Py.eqb (Py.strip line) []); [done|].
  destruct (Csv.next_row (Py.strip line)) as [hf|]; simpl; [|done].
  destruct (Py.list_eqb (cleaned_fields hf) e) eqn:H; [|done].
  apply list_eqb_eq in H. by rewrite H.
Qed.

Lemma header_match_Some (line : str) (e f : list str) :
  header_match line e = Some f <-> f = e /\ Spec.is_header e line.
Proof.
  rewrite header_match_line_fields. unfold Spec.is_header.
  destruct (Spec.line_fields line) as [g|]; [|naive_solver].
  destruct (Py.list_eqb g e) eqn:H.
  - apply list_eqb_eq in H. naive_solver.
  - split; [done|]. intros [_ [= ->]].
    assert (Py.list_eqb e e = true) by by apply list_eqb_eq. congruence.
Qed.

Lemma header_match_None (line : str) (e : list str) :
  header_match line e = None <-> ~ Spec.is_header e line.
Proof.
  destruct (header_match line e) as [f|] eqn:H.
  - apply header_match_Some in H. naive_solver.
  - split; [|done]. intros _ Hh.
    assert (header_match line e = Some e) by by apply header_match_Some.
    congruence.
Qed.

Lemma find_header_from_locate (k : nat) (lines : list str) (e : list str) :
  find_header_from k lines e = Spec.locate_from k lines [e].
Proof.
  revert k. induction lines as [|line rest IH]; intros k; simpl; [done|].
  rewrite header_match_line_fields.
  destruct (Spec.line_fields line) as [f|]; [|apply IH].
  destruct (Py.list_eqb f e); [done|apply IH].
Qed.

Lemma find_header_from_Some (lines : list str) (e : list str) (k i : nat)
  (f : list str) :
  find_header_from k lines e = Some (i, f) <->
  f = e /\ exists d, i = (k + d)%nat
    /\ (exists line, lines !! d = Some line /\ Spec.is_header e line)
    /\ (forall j line, (j < d)%nat -> lines !! j = Some line ->
                       ~ Spec.is_header e line).
Proof.
  revert k. induction lines as [|line rest IH]; intros k; simpl.
  - split; [done|]. intros (_ & d & _ & (l & Hl & _) & _). done.
  - destruct (header_match line e) as [c|] eqn:Hm.
    + apply header_match_Some in Hm as [-> Hh]. split.
      * intros [= <- <-]. split; [done|]. exists 0%nat.
        split; [lia|]. split; [by exists line|]. intros j l Hj. lia.
      * intros (-> & d & -> & (l & Hl & Hl') & Hfirst).
        destruct d as [|d]; [do 2 f_equal; lia|].
        exfalso. by apply (Hfirst 0%nat line); [lia| |].
    + apply header_match_None in Hm. rewrite IH. split.
      * intros (-> & d & -> & (l & Hl & Hl') & Hfirst). split; [done|].
        exists (S d). split; [lia|]. split; [by exists l|].
        intros [|j] l' Hj Hl''; simpl in Hl''; [by injection Hl'' as <-|].
        apply (Hfirst j); [lia|done].
      * intros (-> & d & -> & (l & Hl & Hl') & Hfirst). split; [done|].
        destruct d as [|d]; [simpl in Hl; by injection Hl as <-|].
        exists d. split; [lia|]. split; [by exists l|].
        intros j l' Hj Hl''. apply (Hfirst (S j)); [lia|done].
Qed.

Lemma find_header_from_None (lines : list str) (e : list str) (k : nat) :
  find_header_from k lines e = None <->
  forall j line, lines !! j = Some line -> ~ Spec.is_header e line.
Proof.
  revert k. induction lines as [|line rest IH]; intros k; simpl; [done|].
  destruct (header_match line e) as [c|] eqn:Hm.
  - apply header_match_Some in Hm as [-> Hh]. split; [done|].
    intros H. exfalso. by apply (H 0%nat line).
  - apply header_match_None in Hm. rewrite IH. split.
    + intros H [|j] l Hl; simpl in Hl; [by injection Hl as <-|by apply (H j)].
    + intros H j l Hl. by apply (H (S j)).
Qed.

(** [find_header_row] returns the first line of the window that is the
    header, and nothing when the window has none. *)
Lemma find_header_row_Some (content : list str) (e : list str) (n i : nat)
  (f : list str) :
  find_header_row content e n = Some (i, f) <->
  f = e /\ Spec.first_header content e n i.
Proof.
  unfold find_header_row, Spec.first_header. rewrite find_header_from_Some.
  split.
  - intros (-> & d & -> & (l & Hl & Hh) & Hfirst). simpl.
    apply lookup_take_Some in Hl as [Hl Hd].
    split; [done|]. split; [done|]. split; [by exists l|].
    intros j l' Hj Hl'. apply (Hfirst j); [done|].
    apply lookup_take_Some. split; [done|lia].
  - intros (-> & Hi & (l & Hl & Hh) & Hfirst). split; [done|].
    exists i. split; [done|]. split.
    + exists l. split; [|done]. by apply lookup_take_Some.
    + intros j l' Hj Hl'. apply lookup_take_Some in Hl' as [Hl' _].
      by apply (Hfirst j).
Qed.

Lemma find_header_row_None (content : list str) (e : list str) (n : nat) :
  find_header_row content e n = None <-> Spec.no_header content e n.
Proof.
  unfold find_header_row, Spec.no_header. rewrite find_header_from_None.
  split.
  - intros H j l Hj Hl. apply (H j). by apply lookup_take_Some.
  - intros H j l Hl. apply lookup_take_Some in Hl as [Hl Hj]. by apply (H j).
Qed.

(** ** C3: the header locator *)

(** C3 (as stated, refuted).  With the header without [STOCK_MINIMO] on
    line 0 and the full header on line 1, the first scanned line that equals
    some candidate is line 0, with the 6-column candidate; the stock parser
    returns line 1 with the 7-column candidate, because it looks for the
    full header in the whole window first. *)
Lemma C3_counterexample :
  let lines := [stock_header_line_no_min ++ nl; stock_header_line ++ nl] in
  Spec.locate lines [expected_header_full; expected_header_no_min] 50
    = Some (0%nat, expected_header_no_min)
  /\ stock_find_header lines = Some (1%nat, expected_header_full)
  /\ stock_find_header lines
     <> Spec.locate lines [expected_header_full; expected_header_no_min] 50.
Proof. repeat split; try (vm_compute; reflexivity). vm_compute. discriminate. Qed.

(** C3 (amended).  For one candidate, [find_header_row] scans at most
    [search_range] lines, skips blank lines, tokenizes each line with the
    quoted-comma splitting, trims every field and takes a byte-order mark
    off the first one, and returns the first line whose fields equal the
    candidate exactly, with the candidate; it reports not-found when no line
    of the window does.  With the two candidates of the stock file the
    candidates are tried in turn, each over the whole window: the result is
    the first line that equals the 7-column header if the window has one,
    and only otherwise the first line that equals the 6-column header.  For
    the lines [junk], the 7-column header and a data row the result is
    line 1 with the 7-column candidate; without [STOCK_MINIMO] in the header
    line it is line 1 with the 6-column candidate. *)
Theorem C3_header_location :
  (forall content e n, find_header_row content e n = Spec.locate content [e] n)
  /\ (forall content e n i f,
        find_header_row content e n = Some (i, f) <->
        f = e /\ Spec.first_header content e n i)
  /\ (forall content e n,
        find_header_row content e n = None <-> Spec.no_header content e n)
  /\ (forall content i f,
        stock_find_header content = Some (i, f) <->
        (f = expected_header_full
         /\ Spec.first_header content expected_header_full 50 i)
        \/ (Spec.no_header content expected_header_full 50
            /\ f = expected_header_no_min
            /\ Spec.first_header content expected_header_no_min 50 i))
  /\ (forall content,
        stock_find_header content = None <->
        Spec.no_header content expected_header_full 50
        /\ Spec.no_header content expected_header_no_min 50)
  /\ stock_find_header
       [u "junk" ++ nl; stock_header_line ++ nl; u "ABC,x,y,1,2,z,0" ++ nl]
     = Some (1%nat, expected_header_full)
  /\ stock_find_header
       [u "junk" ++ nl; stock_header_line_no_min ++ nl; u "ABC,x,y,1,2,z" ++ nl]
     = Some (1%nat, expected_header_no_min).
Proof.
  split; [intros; apply find_header_from_locate|].
  split; [apply find_header_row_Some|].
  split; [apply find_header_row_None|].
  split; [|split; [|split; vm_compute; reflexivity]].
  - intros content i f. unfold stock_find_header.
    change default_search_range with 50%nat.
    destruct (find_header_row content expected_header_full 50) as [[i' f']|] eqn:H.
    + apply find_header_row_Some in H as [-> H]. split.
      * intros [= <- <-]. by left.
      * intros [[-> H']|[Hno _]].
        -- do 2 f_equal. destruct H as (Hi & (l & Hl & Hh) & Hf).
           destruct H' as (Hi' & (l' & Hl' & Hh') & Hf').
           destruct (Nat.lt_trichotomy i i') as [Hlt|[Heq|Hgt]]; [|done|].
           ++ exfalso. by apply (Hf i l').
           ++ exfalso. by apply (Hf' i' l).
        -- exfalso. destruct H as (Hi & (l & Hl & Hh) & _). by apply (Hno i' l).
    + apply find_header_row_None in H. rewrite find_header_row_Some. split.
      * intros [-> H']. by right.
      * intros [[_ (Hi & (l & Hl & Hh) & _)]|(_ & -> & H')]; [|done].
        exfalso. by apply (H i l).
  - intros content. unfold stock_find_header.
    change default_search_range with 50%nat.
    destruct (find_header_row content expected_header_full 50) as [[i' f']|] eqn:H.
    + apply find_header_row_Some in H as [-> (Hi & (l & Hl & Hh) & _)].
      split; [done|]. intros [Hno _]. exfalso. by apply (Hno i' l).
    + apply find_header_row_None in H. rewrite find_header_row_None. naive_solver.
Qed.

(** ** The row materializer *)

Lemma take_repeat {A} (x : A) (n m : nat) :
  take n (repeat x m) = repeat x (Nat.min n m).
Proof.
  revert m. induction n as [|n IH]; intros [|m]; simpl; try done.
  by rewrite IH.
Qed.

Lemma pad_or_truncate_fit (n : nat) (tokens : list str) :
  pad_or_truncate n tokens = Spec.fit n tokens.
Proof.
  unfold pad_or_truncate, Spec.fit.
  destruct (Nat.ltb_spec (length tokens) n).
  - rewrite take_app_ge by lia. rewrite take_repeat. do 2 f_equal. lia.
  - by rewrite take_app_le by lia.
Qed.

Lemma fit_length (n : nat) (tokens : list str) : length (Spec.fit n tokens) = n.
Proof.
  unfold Spec.fit. rewrite length_take, length_app, repeat_length. lia.
Qed.

Lemma stock_read_rows_spec (i : nat) (lines : list str) (n : nat) :
  stock_read_rows i lines n =
  (Spec.materialize lines n, Spec.bad_line_numbers (S i) lines).
Proof.
  revert i. induction lines as [|l rest IH]; intros i; [done|].
  simpl. rewrite IH. unfold Spec.materialize, Spec.bad_line, Spec.line_tokens.
  simpl. unfold Spec.line_tokens.
  destruct (Py.eqb (Py.strip l) []); simpl; [done|].
  destruct (Csv.next_row (Py.strip l)); simpl.
  - by rewrite pad_or_truncate_fit.
  - by rewrite Nat.add_1_r.
Qed.

Lemma eco_read_rows_spec (i : nat) (lines : list str) (n : nat) :
  fst (eco_read_rows i lines n) = Spec.materialize_exact lines n.
Proof.
  revert i. induction lines as [|l rest IH]; intros i; [done|].
  simpl. specialize (IH (S i)).
  destruct (eco_read_rows (S i) rest n) as [rows warnings]. simpl in IH.
  unfold Spec.materialize_exact, Spec.line_tokens. simpl.
  unfold Spec.line_tokens.
  destruct (Py.eqb (Py.strip l) []); simpl; [done|].
  destruct (Csv.next_row (Py.strip l)) as [t|]; simpl; [|done].
  destruct (Nat.eqb (length t) n); simpl; [|done]. by rewrite IH.
Qed.

Lemma materialize_app (l1 l2 : list str) (n : nat) :
  Spec.materialize (l1 ++ l2) n = Spec.materialize l1 n ++ Spec.materialize l2 n.
Proof. unfold Spec.materialize. by rewrite omap_app, map_app. Qed.

(** ** C4: padding, truncation and lines that do not tokenize *)

(** C4 (as stated, refuted).  In a budget file the row [CostosDirectos,100]
    has two tokens for three header fields.  The materializer of the
    specification pads it to three fields; the budget parser drops it and
    returns the zeroed grid. *)
Lemma C4_counterexample :
  Spec.materialize (drop 1 eco_short_row) 3 = [[u "CostosDirectos"; u "100"; u ""]]
  /\ fst (eco_data_rows eco_short_row 0 3) = []
  /\ parse_eco_visma (concat eco_short_row) = Some zeroed_eco_data_structure.
Proof. repeat split; vm_compute; reflexivity. Qed.

(** C4 (amended).  Stock file: each non-blank line after the header is
    tokenized with the quoted-comma splitting of the header; a row with
    fewer tokens than the header has fields is padded with empty strings, a
    row with more is cut to the first fields, so that every row has the
    header's field count; a line that does not tokenize is skipped with a
    warning that carries its line number, and every line contributes its
    row independently of the others.  Budget file: the rows are the token
    lists of exactly as many tokens as the header has fields; a row with
    another count is skipped (neither padded nor cut), like a line that does
    not tokenize.  Fuel log: the rows are read by pandas from the whole
    block below the header, and if that read fails the parser returns the
    empty table with the balances, so that no row is kept. *)
Theorem C4_row_materialization :
  (forall content idx n,
     stock_data_rows content idx n =
     (Spec.materialize (drop (S idx) content) n,
      Spec.bad_line_numbers (idx + 2) (drop (S idx) content)))
  /\ (forall content idx n,
        Forall (fun row => length row = n) (fst (stock_data_rows content idx n)))
  /\ (forall i before line after n,
        fst (stock_read_rows i (before ++ line :: after) n) =
        fst (stock_read_rows i before n)
        ++ match Spec.line_tokens line with
           | Some tokens => [Spec.fit n tokens]
           | None => []
           end
        ++ fst (stock_read_rows i after n))
  /\ (forall content idx n,
        fst (eco_data_rows content idx n) =
        Spec.materialize_exact (drop (S idx) content) n)
  /\ (forall read_csv to_datetime text idx,
        data_header_index (fuel_read_setup (Py.readlines text)) = Some idx ->
        read_csv (concat (drop idx (Py.readlines text))) = None ->
        parse_fuel_log read_csv to_datetime text =
        Some (Pd.empty empty_fuel_cols_template,
              initial_stock (fuel_read_setup (Py.readlines text)))).
Proof.
  split; [|split; [|split; [|split]]].
  - intros content idx n. unfold stock_data_rows.
    rewrite stock_read_rows_spec. do 2 f_equal. lia.
  - intros content idx n. unfold stock_data_rows.
    rewrite stock_read_rows_spec. simpl. unfold Spec.materialize.
    apply Forall_map. apply Forall_forall. intros t _. apply fit_length.
  - intros i before line after n. rewrite !stock_read_rows_spec. simpl.
    rewrite materialize_app. f_equal.
    unfold Spec.materialize. simpl. by destruct (Spec.line_tokens line).
  - intros content idx n. apply eco_read_rows_spec.
  - intros read_csv to_datetime text idx Hidx Hread.
    unfold parse_fuel_log. cbv zeta. by rewrite Hidx, Hread.
Qed.

Lemma C4_row_materialization_witness :
  parse_fuel_log Sample.read_csv Sample.to_datetime fuel_ragged =
  Some (Pd.empty empty_fuel_cols_template,
        initial_stock (fuel_read_setup (Py.readlines fuel_ragged))).
Proof.
  apply (proj2 (proj2 (proj2 (proj2 C4_row_materialization)))
           Sample.read_csv Sample.to_datetime fuel_ragged 0%nat);
    vm_compute; reflexivity.
Defined.

(** ** Columns and rows *)

Lemma select_map_filter {A B} (p : A -> bool) (f : A -> B) (l : list A) :
  Pd.select (map p l) (map f l) = map f (List.filter p l).
Proof.
  induction l as [|x l IH]; simpl; [done|].
  destruct (p x); simpl; by rewrite IH.
Qed.

Lemma select_seq_length {A} (p : A -> bool) (l : list A) (k : nat) :
  length (Pd.select (map p l) (seq k (length l))) = length (List.filter p l).
Proof.
  revert k. induction l as [|x l IH]; intros k; simpl; [done|].
  destruct (p x); simpl; by rewrite IH.
Qed.

Lemma zip_with_map_map {A B C D} (f : B -> C -> D) (g : A -> B) (h : A -> C)
  (l : list A) :
  zip_with f (map g l) (map h l) = map (fun x => f (g x) (h x)) l.
Proof. induction l as [|x l IH]; simpl; [done|]. by rewrite IH. Qed.

Lemma forallb_length (n : nat) {A} (rows : list (list A)) :
  Forall (fun row => length row = n) rows ->
  forallb (fun row => Nat.eqb (length row) n) rows = true.
Proof.
  induction 1 as [|row rows Hrow _ IH]; simpl; [done|].
  rewrite IH, andb_true_r. by apply Nat.eqb_eq.
Qed.

(** ** The stock pipeline *)

Lemma stock_clean_full (n : nat) (c0 c1 c2 c3 c4 c5 c6 : list str) :
  stock_clean
    (mk_frame n
       [(Codigo, StrS c0); (Producto, StrS c1); (Categoria, StrS c2);
        (CantidadActual, StrS c3); (CostoUnitario, StrS c4);
        (Ubicacion, StrS c5); (STOCK_MINIMO, StrS c6)])
  = let mask := zip_with andb (map (fun x => negb (Py.eqb x [])) (map Py.strip c0))
                              (map (fun x => negb (Py.eqb x [])) (map Py.strip c2)) in
    let q := map (fun x => safe_float_parse (Some x)) c3 in
    let c := map (fun x => safe_float_parse (Some x)) c4 in
    Some (mk_frame (length (Pd.select mask (seq 0 n)))
      [(Codigo, StrS (Pd.select mask (map Py.strip c0)));
       (Producto, StrS (Pd.select mask (map Py.strip c1)));
       (Categoria, StrS (Pd.select mask (map Py.strip c2)));
       (CantidadActual, NumS (Pd.select mask q));
       (CostoUnitario, NumS (Pd.select mask c));
       (Valor_Total_Item,
         NumS (Pd.select mask
                 (zip_with (fun p q => Float.mul (Float.fillna0 p) (Float.fillna0 q)) q c)));
       (Ubicacion, StrS (Pd.select mask (map Py.strip c5)));
       (STOCK_MINIMO, NumS (Pd.select mask (map (fun x => safe_float_parse (Some x)) c6)))]).
Proof. cbv -[safe_float_parse Py.strip Float.mul Float.fillna0]. reflexivity. Qed.

Lemma stock_clean_no_min (n : nat) (c0 c1 c2 c3 c4 c5 : list str) :
  stock_clean
    (mk_frame n
       [(Codigo, StrS c0); (Producto, StrS c1); (Categoria, StrS c2);
        (CantidadActual, StrS c3); (CostoUnitario, StrS c4); (Ubicacion, StrS c5)])
  = let mask := zip_with andb (map (fun x => negb (Py.eqb x [])) (map Py.strip c0))
                              (map (fun x => negb (Py.eqb x [])) (map Py.strip c2)) in
    let q := map (fun x => safe_float_parse (Some x)) c3 in
    let c := map (fun x => safe_float_parse (Some x)) c4 in
    Some (mk_frame (length (Pd.select mask (seq 0 n)))
      [(Codigo, StrS (Pd.select mask (map Py.strip c0)));
       (Producto, StrS (Pd.select mask (map Py.strip c1)));
       (Categoria, StrS (Pd.select mask (map Py.strip c2)));
       (CantidadActual, NumS (Pd.select mask q));
       (CostoUnitario, NumS (Pd.select mask c));
       (Valor_Total_Item,
         NumS (Pd.select mask
                 (zip_with (fun p q => Float.mul (Float.fillna0 p) (Float.fillna0 q)) q c)));
       (Ubicacion, StrS (Pd.select mask (map Py.strip c5)));
       (STOCK_MINIMO, NumS (Pd.select mask (repeat Float.zero n)))]).
Proof. cbv -[safe_float_parse Py.strip Float.mul Float.fillna0]. reflexivity. Qed.

Lemma repeat_map_const {A B} (x : B) (l : list A) :
  repeat x (length l) = map (fun _ => x) l.
Proof. induction l as [|y l IH]; simpl; [done|]. by rewrite IH. Qed.

(** The frame built from the rows and cleaned is the table of the valid
    rows. *)
Lemma stock_frame_table (names : list str) (rows : list (list str)) :
  names = expected_header_full \/ names = expected_header_no_min ->
  rows <> [] ->
  Forall (fun row => length row = length names) rows ->
  (df_raw_data ← Pd.of_rows rows names; stock_clean df_raw_data)
  = Some (stock_table (Py.list_eqb names expected_header_full) rows).
Proof.
  intros Hnames Hne Hlen. unfold Pd.of_rows.
  rewrite (forallb_length _ _ Hlen). simpl.
  destruct rows as [|r rows']; [done|]. set (rows := r :: rows') in *.
  unfold stock_table. change (match rows with [] => _ | _ :: _ => ?x end) with x.
  destruct Hnames as [-> | ->].
  - change (Py.list_eqb expected_header_full expected_header_full) with true.
    cbn [expected_header_full Pd.columns_of_rows map].
    rewrite stock_clean_full. cbv zeta.
    rewrite !map_map, !zip_with_map_map, !select_map_filter, select_seq_length.
    reflexivity.
  - change (Py.list_eqb expected_header_no_min expected_header_full) with false.
    cbn [expected_header_no_min Pd.columns_of_rows map].
    rewrite stock_clean_no_min. cbv zeta.
    rewrite repeat_map_const.
    rewrite !map_map, !zip_with_map_map, !select_map_filter, select_seq_length.
    reflexivity.
Qed.

Lemma stock_find_header_names (content : list str) (idx : nat) (names : list str) :
  stock_find_header content = Some (idx, names) ->
  names = expected_header_full \/ names = expected_header_no_min.
Proof.
  unfold stock_find_header.
  destruct (find_header_row content expected_header_full _) as [[i f]|] eqn:H.
  - intros [= <- <-]. apply find_header_row_Some in H. left. apply H.
  - intros H'. apply find_header_row_Some in H'. right. apply H'.
Qed.

Lemma stock_rows_length (content : list str) (idx : nat) (names : list str) :
  Forall (fun row => length row = length names) (stock_rows content idx names).
Proof.
  unfold stock_rows, stock_data_rows. rewrite stock_read_rows_spec. simpl.
  unfold Spec.materialize. apply Forall_map, Forall_forall.
  intros t _. apply fit_length.
Qed.

(** The stock parser as a function of the header found and of the rows. *)
Lemma parse_stock_visma_table (text : str) :
  parse_stock_visma text =
  match stock_find_header (Py.readlines text) with
  | None => None
  | Some (idx, names) =>
      Some (stock_table (Py.list_eqb names expected_header_full)
              (stock_rows (Py.readlines text) idx names))
  end.
Proof.
  unfold parse_stock_visma.
  destruct (stock_find_header (Py.readlines text)) as [[idx names]|] eqn:H; [|done].
  unfold stock_after_header. fold (stock_rows (Py.readlines text) idx names).
  destruct (stock_rows (Py.readlines text) idx names) as [|r rows] eqn:Hrows; [done|].
  rewrite <- Hrows. apply stock_frame_table.
  - by apply (stock_find_header_names (Py.readlines text) idx).
  - by rewrite Hrows.
  - apply stock_rows_length.
Qed.

(** ** The budget pipeline *)

Lemma lookup_map {A B} (f : A -> B) (l : list A) (i : nat) :
  map f l !! i = option_map f (l !! i).
Proof.
  revert i. induction l as [|x l IH]; intros [|i]; simpl; auto.
Qed.

Lemma eco_clean_frame (m : nat) (c0 c1 c2 : list str) :
  eco_clean (mk_frame (S m) [(Categoria, StrS c0); (Invierno, StrS c1); (Verano, StrS c2)])
  = eco_iterrows
      (mk_frame (S m)
         [(Categoria, StrS (map Py.strip c0));
          (Invierno, NumS (map (fun x => safe_float_parse (Some x)) c1));
          (Verano, NumS (map (fun x => safe_float_parse (Some x)) c2))])
      (seq 0 (S m)) (mk_eco zeroed_season zeroed_season).
Proof. cbv -[safe_float_parse Py.strip zeroed_season eco_iterrows seq]. reflexivity. Qed.

(** The frame of the cleaned budget rows. *)
Lemma eco_add_row_at (n : nat) (rows : list (list str)) (p : eco_data) (i : nat)
  (row : list str) :
  rows !! i = Some row ->
  eco_add_row
    (mk_frame n
       [(Categoria, StrS (map (fun r => Py.strip (field 0 r)) rows));
        (Invierno, NumS (map (coerce_field 1) rows));
        (Verano, NumS (map (coerce_field 2) rows))]) p i
  = match category_mapping_to_internal_key !! Py.strip (field 0 row) with
    | Some key =>
        if Py.in_list key expected_internal_keys_eco then
          x ← invierno p !! key; y ← verano p !! key;
          Some (mk_eco (<[key := Float.add x (coerce_field 1 row)]> (invierno p))
                       (<[key := Float.add y (coerce_field 2 row)]> (verano p)))
        else Some p
    | None => Some p
    end.
Proof.
  intros Hrow. unfold eco_add_row, Pd.cell_at, Pd.getcol.
  cbn [cols Pd.lookup_col].
  change (Py.eqb Categoria Categoria) with true.
  change (Py.eqb Categoria Invierno) with false.
  change (Py.eqb Invierno Invierno) with true.
  change (Py.eqb Categoria Verano) with false.
  change (Py.eqb Invierno Verano) with false.
  change (Py.eqb Verano Verano) with true.
  cbn [Pd.series_cells]. rewrite !lookup_map, Hrow. reflexivity.
Qed.

Lemma in_list_elem_of (x : str) (l : list str) :
  Py.in_list x l = true <-> x ∈ l.
Proof.
  unfold Py.in_list. rewrite existsb_exists. split.
  - intros (y & Hy & ->%eqb_eq). by apply list_elem_of_In.
  - intros H. exists x. split; [by apply list_elem_of_In|apply eqb_refl].
Qed.

Lemma eco_sum_snoc (k : nat) (key : str) (rows : list (list str)) (row : list str) :
  eco_sum k key (rows ++ [row]) =
  if eco_maps_to key row then Float.add (eco_sum k key rows) (coerce_field k row)
  else eco_sum k key rows.
Proof.
  unfold eco_sum. rewrite List.filter_app. simpl.
  destruct (eco_maps_to key row); simpl.
  - by rewrite List.map_app, fold_left_app.
  - by rewrite app_nil_r.
Qed.

Lemma eco_keys_NoDup : NoDup expected_internal_keys_eco.
Proof. by apply (bool_decide_unpack _); vm_compute. Qed.

Lemma eco_season_lookup (k : nat) (rows : list (list str)) (key : str) :
  eco_season k rows !! key =
  if bool_decide (key ∈ expected_internal_keys_eco)
  then Some (eco_sum k key rows) else None.
Proof.
  unfold eco_season. case_bool_decide as Hk.
  - apply elem_of_list_to_map_1.
    + replace ((map (fun key0 => (key0, eco_sum k key0 rows))
                  expected_internal_keys_eco).*1) with expected_internal_keys_eco
        by reflexivity.
      apply eco_keys_NoDup.
    + apply list_elem_of_In, in_map_iff. exists key.
      split; [done|]. by apply list_elem_of_In.
  - apply not_elem_of_list_to_map_1.
    replace ((map (fun key0 => (key0, eco_sum k key0 rows))
                expected_internal_keys_eco).*1) with expected_internal_keys_eco
      by reflexivity.
    done.
Qed.

Lemma eco_invariant_grid (rows : list (list str)) :
  eco_invariant (eco_grid rows) rows.
Proof.
  intros key. simpl. rewrite !eco_season_lookup. split; intros Hk.
  - by rewrite !bool_decide_eq_true_2.
  - by rewrite !bool_decide_eq_false_2.
Qed.

Lemma eco_invariant_init : eco_invariant (mk_eco zeroed_season zeroed_season) [].
Proof.
  change (mk_eco zeroed_season zeroed_season) with (eco_grid []).
  apply eco_invariant_grid.
Qed.

Lemma eco_step_invariant (p : eco_data) (done : list (list str)) (row : list str) :
  eco_invariant p done ->
  exists p',
    match category_mapping_to_internal_key !! Py.strip (field 0 row) with
    | Some key =>
        if Py.in_list key expected_internal_keys_eco then
          x ← invierno p !! key; y ← verano p !! key;
          Some (mk_eco (<[key := Float.add x (coerce_field 1 row)]> (invierno p))
                       (<[key := Float.add y (coerce_field 2 row)]> (verano p)))
        else Some p
    | None => Some p
    end = Some p'
    /\ eco_invariant p' (done ++ [row]).
Proof.
  intros Hinv.
  destruct (category_mapping_to_internal_key !! Py.strip (field 0 row))
    as [key0|] eqn:Hm.
  - destruct (Py.in_list key0 expected_internal_keys_eco) eqn:Hin.
    + apply in_list_elem_of in Hin.
      destruct (Hinv key0) as [Hcell _]. destruct (Hcell Hin) as [Hi Hv].
      rewrite Hi, Hv. simpl. eexists. split; [done|].
      intros key. rewrite !eco_sum_snoc. unfold eco_maps_to. rewrite Hm. simpl.
      destruct (Py.eqb key0 key) eqn:He.
      * apply eqb_eq in He. subst key. rewrite !lookup_insert_eq. by split.
      * apply eqb_neq in He. rewrite !lookup_insert_ne by done. apply Hinv.
    + exists p. split; [done|].
      intros key. rewrite !eco_sum_snoc. unfold eco_maps_to. rewrite Hm.
      destruct (Py.eqb key0 key) eqn:He; [|apply Hinv].
      apply eqb_eq in He. subst key. split; [|apply Hinv].
      intros Hk%in_list_elem_of. congruence.
  - exists p. split; [done|].
    intros key. rewrite !eco_sum_snoc. unfold eco_maps_to. rewrite Hm. apply Hinv.
Qed.

Lemma eco_iterrows_rows (n : nat) (l2 l1 : list (list str)) (p : eco_data) :
  eco_invariant p l1 ->
  exists e,
    eco_iterrows
      (mk_frame n
         [(Categoria, StrS (map (fun r => Py.strip (field 0 r)) (l1 ++ l2)));
          (Invierno, NumS (map (coerce_field 1) (l1 ++ l2)));
          (Verano, NumS (map (coerce_field 2) (l1 ++ l2)))])
      (seq (length l1) (length l2)) p = Some e
    /\ eco_invariant e (l1 ++ l2).
Proof.
  revert l1 p. induction l2 as [|row l2 IH]; intros l1 p Hinv.
  - exists p. simpl. by rewrite app_nil_r.
  - simpl seq. simpl eco_iterrows.
    rewrite (eco_add_row_at n (l1 ++ row :: l2) p (length l1) row)
      by apply list_lookup_middle, eq_refl.
    destruct (eco_step_invariant p l1 row Hinv) as (p' & -> & Hinv').
    destruct (IH (l1 ++ [row]) p' Hinv') as (e & He & Hinve).
    rewrite <- !app_assoc in He, Hinve. simpl in He, Hinve.
    rewrite length_app in He. simpl in He. rewrite Nat.add_1_r in He.
    by exists e.
Qed.

Lemma eco_grid_invariant (e : eco_data) (rows : list (list str)) :
  eco_invariant e rows -> e = eco_grid rows.
Proof.
  intros Hinv. destruct e as [i v]. unfold eco_grid.
  f_equal; apply map_eq; intros key; rewrite eco_season_lookup;
    destruct (Hinv key) as [Hin Hout]; simpl in Hin, Hout;
    case_bool_decide as Hk; [by apply Hin|by apply Hout|by apply Hin|by apply Hout].
Qed.

Lemma eco_rows_length (content : list str) (idx : nat) (names : list str) :
  Forall (fun row => length row = length names) (eco_rows content idx names).
Proof.
  unfold eco_rows, eco_data_rows. rewrite eco_read_rows_spec.
  unfold Spec.materialize_exact. apply Forall_forall.
  intros t Ht%list_elem_of_In%filter_In. by apply Nat.eqb_eq, Ht.
Qed.

(** The budget parser as a function of the rows below the header. *)
Lemma parse_eco_visma_grid (text : str) :
  parse_eco_visma text =
  match find_header_row (Py.readlines text) expected_header_simple 50 with
  | None => None
  | Some (idx, names) => Some (eco_grid (eco_rows (Py.readlines text) idx names))
  end.
Proof.
  unfold parse_eco_visma. change default_search_range with 50%nat.
  destruct (find_header_row _ _ _) as [[idx names]|] eqn:H; [|done].
  apply find_header_row_Some in H as [-> _].
  fold (eco_rows (Py.readlines text) idx expected_header_simple).
  pose proof (eco_rows_length (Py.readlines text) idx expected_header_simple) as Hlen.
  destruct (eco_rows _ _ _) as [|r rows'] eqn:Hrows.
  - reflexivity.
  - rewrite <- Hrows in *. set (rows := eco_rows _ _ _) in *.
    unfold Pd.of_rows. rewrite (forallb_length _ _ Hlen). simpl.
    cbn [expected_header_simple Pd.columns_of_rows map].
    assert (Hn : length rows = S (length rows')) by by rewrite Hrows.
    rewrite Hn, eco_clean_frame, <- Hn, !map_map.
    destruct (eco_iterrows_rows (length rows) rows [] _ eco_invariant_init)
      as (e & He & Hinv).
    simpl in He, Hinv. unfold field, coerce_field, field in He.
    rewrite He. f_equal. by apply eco_grid_invariant.
Qed.

(** ** Trimming twice *)

Lemma drop_while_head (p : N -> bool) (s : str) :
  match Py.drop_while p s with [] => True | c :: _ => p c = false end.
Proof.
  induction s as [|c s IH]; simpl; [done|].
  destruct (p c) eqn:Hc; [exact IH|exact Hc].
Qed.

Lemma drop_while_id (p : N -> bool) (s : str) :
  match s with [] => True | c :: _ => p c = false end -> Py.drop_while p s = s.
Proof. destruct s as [|c s]; simpl; [done|]. by intros ->. Qed.

Lemma drop_while_last (p : N -> bool) (l : str) (c : N) :
  p c = false -> exists pre, Py.drop_while p (l ++ [c]) = pre ++ [c].
Proof.
  intros Hc. induction l as [|x l IH]; simpl.
  - rewrite Hc. by exists [].
  - destruct (p x); [exact IH|]. by exists (x :: l).
Qed.

Lemma strip_strip (s : str) : Py.strip (Py.strip s) = Py.strip s.
Proof.
  unfold Py.strip, Py.rstrip, Py.lstrip.
  pose proof (drop_while_head Py.isspace s) as Ht.
  destruct (Py.drop_while Py.isspace s) as [|c t]; [reflexivity|].
  destruct (drop_while_last Py.isspace (rev t) c Ht) as [pre Hpre].
  change (rev (c :: t)) with (rev t ++ [c]). rewrite Hpre.
  rewrite rev_app_distr. simpl. rewrite Ht. simpl.
  rewrite rev_involutive, <- Hpre.
  rewrite (drop_while_id _ (Py.drop_while _ _)); [|apply drop_while_head].
  by rewrite Hpre, rev_app_distr.
Qed.

(** ** The columns read by pandas *)

Lemma dict_fold_notin (ks vs : list str) (d : gmap (list N) (list N)) (k : str) :
  k ∉ ks ->
  fold_left (fun d kv => <[fst kv := snd kv]> d) (zip ks vs) d !! k = d !! k.
Proof.
  revert vs d. induction ks as [|k0 ks IH]; intros [|v vs] d Hk; simpl; try done.
  apply not_elem_of_cons in Hk as [Hk0 Hk].
  rewrite IH by done. by apply lookup_insert_ne.
Qed.

Lemma dict_fold_lookup (ks vs : list str) (d : gmap (list N) (list N))
  (i : nat) (k v : str) :
  NoDup ks -> ks !! i = Some k -> vs !! i = Some v ->
  fold_left (fun d kv => <[fst kv := snd kv]> d) (zip ks vs) d !! k = Some v.
Proof.
  revert vs d i. induction ks as [|k0 ks IH]; intros [|v0 vs] d i Hnd Hk Hv;
    try done.
  apply NoDup_cons in Hnd as [Hk0 Hnd]. destruct i as [|i]; simpl in *.
  - injection Hk as ->. injection Hv as ->.
    rewrite dict_fold_notin by done. apply lookup_insert_eq.
  - by apply (IH _ _ i).
Qed.

Lemma rename_zip (d : gmap (list N) (list N)) (ks vs : list str) (ss : list series) :
  (forall i k v, ks !! i = Some k -> vs !! i = Some v -> d !! k = Some v) ->
  length ks = length vs ->
  map (fun '(c, s) => (Pd.rename_label d c, s)) (zip ks ss) = zip vs ss.
Proof.
  revert vs ss. induction ks as [|k ks IH]; intros [|v vs] [|s ss] Hd Hlen;
    simpl in *; try done.
  f_equal.
  - unfold Pd.rename_label. by rewrite (Hd 0%nat k v).
  - apply IH; [|lia]. intros i k' v' Hk Hv. by apply (Hd (S i)).
Qed.

Lemma columns_of_rows_zip {A} (d : A) (i : nat) (labels : list str)
  (rows : list (list A)) :
  Pd.columns_of_rows d i labels rows =
  zip labels (map (fun k => map (fun row => nth k row d) rows) (seq i (length labels))).
Proof.
  revert i. induction labels as [|c labels IH]; intros i; simpl; [done|].
  by rewrite IH.
Qed.

Lemma frame_of_raw_cols (raw : RawFrame) :
  cols (frame_of_raw raw) =
  zip (raw_labels raw)
    (map (fun k => ObjS (map (raw_field k) (raw_rows raw)))
       (seq 0 (length (raw_labels raw)))).
Proof.
  unfold frame_of_raw. simpl. rewrite columns_of_rows_zip.
  generalize (seq 0 (length (raw_labels raw))). 
  induction (raw_labels raw) as [|c l IH]; intros [|k ks]; simpl; try done.
  by rewrite IH.
Qed.

Lemma frame_of_raw_columns (raw : RawFrame) :
  Pd.columns (frame_of_raw raw) = raw_labels raw.
Proof.
  unfold Pd.columns. rewrite frame_of_raw_cols.
  apply fst_zip. rewrite length_map, length_seq. lia.
Qed.

Lemma fuel_align_columns_expected (raw : RawFrame) :
  length (raw_labels raw) = 8%nat -> NoDup (raw_labels raw) ->
  fuel_align_columns (frame_of_raw raw) =
  let column := fun k => ObjS (map (raw_field k) (raw_rows raw)) in
  mk_frame (length (raw_rows raw))
    [(Fecha, column 0%nat); (Equipo, column 1%nat); (CodigoCombustible, column 2%nat);
     (LtsIngreso, column 3%nat); (LtsEgreso, column 4%nat); (HsKm, column 5%nat);
     (Comentarios, column 6%nat); (CostoUnitarioLt, column 7%nat)].
Proof.
  intros Hlen Hnd. unfold fuel_align_columns.
  rewrite frame_of_raw_columns, Hlen. simpl Nat.eqb. cbv iota.
  unfold Pd.rename. rewrite frame_of_raw_cols.
  rewrite (rename_zip _ _ expected_data_header_simple_v2).
  - rewrite Hlen. reflexivity.
  - intros i k v. by apply dict_fold_lookup.
  - by rewrite Hlen.
Qed.

(** ** The fuel pipeline *)

Lemma fuel_convert_expected (to_datetime : list (option str) -> nat -> option Z)
  (mapping : gmap (list N) (list N)) (n : nat)
  (c0 c1 c2 c3 c4 c5 c6 c7 : list (option str)) :
  fuel_convert to_datetime
    (mk_frame n
       [(Fecha, ObjS c0); (Equipo, ObjS c1); (CodigoCombustible, ObjS c2);
        (LtsIngreso, ObjS c3); (LtsEgreso, ObjS c4); (HsKm, ObjS c5);
        (Comentarios, ObjS c6); (CostoUnitarioLt, ObjS c7)]) mapping
  = let text := fun c => Py.strip (Pd.astype_str c) in
    let codigo := map Py.strip (map text c2) in
    let egreso := map safe_float_parse c4 in
    let costo := map safe_float_parse c7 in
    Some (mk_frame n
      [(Fecha, TimeS (map (to_datetime c0) (seq 0 (length c0))));
       (Equipo, StrS (map text c1));
       (CodigoCombustible, StrS codigo);
       (LtsIngreso, NumS (map safe_float_parse c3));
       (LtsEgreso, NumS egreso);
       (HsKm, StrS (map text c5));
       (Comentarios, StrS (map text c6));
       (CostoUnitarioLt, NumS costo);
       (Hs_Km_Numeric,
         NumS (map Float.fillna0
                 (map (fun x => safe_float_parse (Some x)) (map text c5))));
       (Costo_Total_Egreso,
         NumS (zip_with (fun p q => Float.mul (Float.fillna0 p) (Float.fillna0 q))
                 egreso costo));
       (Tipo_de_Comb,
         StrS (map (fun x => match mapping !! x with
                             | Some v => v
                             | None => Desconocido
                             end) codigo))]).
Proof.
  cbv -[safe_float_parse Py.strip Float.mul Float.fillna0 Pd.astype_str lookup].
  reflexivity.
Qed.

Lemma fuel_filter_expected (n : nat) (c0 : list (option Z))
  (c1 c2 c5 c6 c10 : list str) (c3 c4 c7 c8 c9 : list float) :
  fuel_filter
    (mk_frame n
       [(Fecha, TimeS c0); (Equipo, StrS c1); (CodigoCombustible, StrS c2);
        (LtsIngreso, NumS c3); (LtsEgreso, NumS c4); (HsKm, StrS c5);
        (Comentarios, StrS c6); (CostoUnitarioLt, NumS c7);
        (Hs_Km_Numeric, NumS c8); (Costo_Total_Egreso, NumS c9);
        (Tipo_de_Comb, StrS c10)])
  = let m1 := map (fun t => match t with Some _ => true | None => false end) c0 in
    let m2 := map (fun x => negb (Py.eqb (Py.strip x) [])) (Pd.select m1 c1) in
    let m3 := map (fun x => negb (Py.eqb (Py.strip x) []))
                  (Pd.select m2 (Pd.select m1 c2)) in
    Some (mk_frame
      (length (Pd.select m3 (seq 0 (length (Pd.select m2
                 (seq 0 (length (Pd.select m1 (seq 0 n)))))))))
      [(Fecha, TimeS (keep3 m1 m2 m3 c0)); (Equipo, StrS (keep3 m1 m2 m3 c1));
       (CodigoCombustible, StrS (keep3 m1 m2 m3 c2));
       (LtsIngreso, NumS (keep3 m1 m2 m3 c3)); (LtsEgreso, NumS (keep3 m1 m2 m3 c4));
       (HsKm, StrS (keep3 m1 m2 m3 c5)); (Comentarios, StrS (keep3 m1 m2 m3 c6));
       (CostoUnitarioLt, NumS (keep3 m1 m2 m3 c7));
       (Hs_Km_Numeric, NumS (keep3 m1 m2 m3 c8));
       (Costo_Total_Egreso, NumS (keep3 m1 m2 m3 c9));
       (Tipo_de_Comb, StrS (keep3 m1 m2 m3 c10))]).
Proof. cbv -[Py.strip]. reflexivity. Qed.

(** The renaming dictionary restricted to the columns of the frame renames
    as the whole dictionary does. *)
Lemma rename_present (d : gmap (list N) (list N)) (df : DataFrame) :
  Pd.rename (filter (fun kv => Pd.has_column (fst kv) df = true) d) df = Pd.rename d df.
Proof.
  unfold Pd.rename. f_equal. apply map_ext_in. intros [c s] Hin.
  f_equal. unfold Pd.rename_label.
  assert (Hc : Pd.has_column c df = true).
  { unfold Pd.has_column, Py.in_list, Pd.columns. apply existsb_exists.
    exists c. split; [|apply eqb_refl]. apply in_map_iff. by exists (c, s). }
  destruct (d !! c) as [v|] eqn:Hd.
  - by rewrite (map_lookup_filter_Some_2 _ _ c v).
  - by rewrite map_lookup_filter_None_2; [|left].
Qed.

Lemma rename_label_internal :
  map (Pd.rename_label rename_map_to_internal)
    [Fecha; Equipo; CodigoCombustible; LtsIngreso; LtsEgreso; HsKm; Comentarios;
     CostoUnitarioLt; Hs_Km_Numeric; Costo_Total_Egreso; Tipo_de_Comb]
  = [Fecha; Equipo_Int; Codigo; Lts_Ingreso; Lts_Egreso; HsKm; Comentarios;
     Costo_Unitario_Lt; Hs_Km_Numeric; Costo_Total_Egreso; Tipo_de_Comb].
Proof. vm_compute. reflexivity. Qed.

Lemma rename_columns (d : gmap (list N) (list N)) (n : nat)
  (cs : list (str * series)) :
  Pd.rename d (mk_frame n cs) =
  mk_frame n (zip (map (Pd.rename_label d) (map fst cs)) (map snd cs)).
Proof.
  unfold Pd.rename. simpl. f_equal.
  induction cs as [|[c s] cs IH]; simpl; [done|]. by rewrite IH.
Qed.

Lemma fuel_finalize_expected (n : nat) (s0 s1 s2 s3 s4 s5 s6 s7 s8 s9 s10 : series) :
  fuel_finalize
    (mk_frame n
       [(Fecha, s0); (Equipo, s1); (CodigoCombustible, s2);
        (LtsIngreso, s3); (LtsEgreso, s4); (HsKm, s5);
        (Comentarios, s6); (CostoUnitarioLt, s7);
        (Hs_Km_Numeric, s8); (Costo_Total_Egreso, s9); (Tipo_de_Comb, s10)])
  = Some (mk_frame n
       [(Fecha, s0); (Equipo_Int, s1); (Codigo, s2); (Lts_Ingreso, s3);
        (Lts_Egreso, s4); (HsKm, s5); (Hs_Km_Numeric, s8); (Tipo_de_Comb, s10);
        (Comentarios, s6); (Costo_Unitario_Lt, s7); (Costo_Total_Egreso, s9)]).
Proof.
  unfold fuel_finalize. cbv zeta. rewrite rename_present, rename_columns.
  simpl (map fst _). simpl (map snd _). rewrite rename_label_internal.
  cbv. reflexivity.
Qed.

Lemma fuel_normalize_expected (to_datetime : list (option str) -> nat -> option Z)
  (mapping : gmap (list N) (list N)) (n : nat)
  (c0 c1 c2 c3 c4 c5 c6 c7 : list (option str)) :
  fuel_normalize to_datetime
    (mk_frame n
       [(Fecha, ObjS c0); (Equipo, ObjS c1); (CodigoCombustible, ObjS c2);
        (LtsIngreso, ObjS c3); (LtsEgreso, ObjS c4); (HsKm, ObjS c5);
        (Comentarios, ObjS c6); (CostoUnitarioLt, ObjS c7)]) mapping
  = let text := fun c => Py.strip (Pd.astype_str c) in
    let date := map (to_datetime c0) (seq 0 (length c0)) in
    let equipo := map text c1 in
    let codigo := map Py.strip (map text c2) in
    let m1 := map (fun t => match t with Some _ => true | None => false end) date in
    let m2 := map (fun x => negb (Py.eqb (Py.strip x) [])) (Pd.select m1 equipo) in
    let m3 := map (fun x => negb (Py.eqb (Py.strip x) []))
                  (Pd.select m2 (Pd.select m1 codigo)) in
    let egreso := map safe_float_parse c4 in
    let costo := map safe_float_parse c7 in
    Some (mk_frame
      (length (Pd.select m3 (seq 0 (length (Pd.select m2
                 (seq 0 (length (Pd.select m1 (seq 0 n)))))))))
      [(Fecha, TimeS (keep3 m1 m2 m3 date));
       (Equipo_Int, StrS (keep3 m1 m2 m3 equipo));
       (Codigo, StrS (keep3 m1 m2 m3 codigo));
       (Lts_Ingreso, NumS (keep3 m1 m2 m3 (map safe_float_parse c3)));
       (Lts_Egreso, NumS (keep3 m1 m2 m3 egreso));
       (HsKm, StrS (keep3 m1 m2 m3 (map text c5)));
       (Hs_Km_Numeric,
         NumS (keep3 m1 m2 m3 (map Float.fillna0
                       (map (fun x => safe_float_parse (Some x)) (map text c5)))));
       (Tipo_de_Comb,
         StrS (keep3 m1 m2 m3 (map (fun x => match mapping !! x with
                                   | Some v => v
                                   | None => Desconocido
                                   end) codigo)));
       (Comentarios, StrS (keep3 m1 m2 m3 (map text c6)));
       (Costo_Unitario_Lt, NumS (keep3 m1 m2 m3 costo));
       (Costo_Total_Egreso,
         NumS (keep3 m1 m2 m3 (zip_with (fun p q => Float.mul (Float.fillna0 p) (Float.fillna0 q))
                       egreso costo)))]).
Proof.
  unfold fuel_normalize. rewrite fuel_convert_expected. cbv zeta.
  cbn [mbind option_bind]. rewrite fuel_filter_expected. cbv zeta.
  cbn [mbind option_bind]. apply fuel_finalize_expected.
Qed.

(** ** The fuel table, row by row *)

Lemma map_zip_snd {A B} (f : A -> B) (k : nat) (l : list A) :
  map f l = map (fun ir => f (snd ir)) (zip (seq k (length l)) l).
Proof. revert k. induction l as [|x l IH]; intros k; simpl; [done|]. by rewrite <- IH. Qed.

Lemma map_zip_fst {A B} (g : nat -> B) (k : nat) (l : list A) :
  map g (seq k (length l)) = map (fun ir => g (fst ir)) (zip (seq k (length l)) l).
Proof. revert k. induction l as [|x l IH]; intros k; simpl; [done|]. by rewrite <- IH. Qed.

Lemma filter_andb {A} (p q : A -> bool) (l : list A) :
  List.filter q (List.filter p l) = List.filter (fun x => p x && q x) l.
Proof.
  induction l as [|x l IH]; simpl; [done|].
  destruct (p x); simpl; [destruct (q x)|]; by rewrite IH.
Qed.

Lemma keep3_filter {A B} (p1 p2 p3 : A -> bool) (f : A -> B) (l : list A) :
  keep3 (map p1 l) (map p2 (List.filter p1 l))
    (map p3 (List.filter p2 (List.filter p1 l))) (map f l)
  = map f (List.filter (fun x => p1 x && p2 x && p3 x) l).
Proof.
  unfold keep3. rewrite !select_map_filter. f_equal.
  by rewrite (filter_andb p1 p2), (filter_andb _ p3).
Qed.

Lemma fuel_clean_table (to_datetime : list (option str) -> nat -> option Z)
  (mapping : gmap (list N) (list N)) (raw : RawFrame) :
  length (raw_labels raw) = 8%nat -> NoDup (raw_labels raw) ->
  fuel_clean to_datetime (frame_of_raw raw) mapping =
  Some (fuel_table to_datetime mapping (raw_rows raw)).
Proof.
  intros Hlen Hnd. unfold fuel_clean.
  rewrite fuel_align_columns_expected by done. cbv beta zeta.
  rewrite fuel_normalize_expected. cbv zeta.
  destruct raw as [labels rows]. simpl raw_rows. clear.
  unfold fuel_table. rewrite !map_map, length_map.
  set (td := to_datetime (map (raw_field 0) rows)).
  rewrite !(map_zip_snd _ 0 rows), !(map_zip_fst _ 0 rows).
  set (irs := zip (seq 0 (length rows)) rows).
  replace (length rows) with (length irs)
    by (unfold irs; rewrite length_zip, length_seq; lia).
  unfold keep3.
  rewrite zip_with_map_map.
  repeat (rewrite select_map_filter || rewrite map_map || rewrite select_seq_length).
  rewrite (filter_andb _ _ irs), (filter_andb _ _ irs).
  rewrite (List.filter_ext _ (fuel_valid to_datetime rows))
    by (intros [i r]; unfold fuel_valid, fuel_date, raw_text; simpl;
        by rewrite !strip_strip).
  fold irs. set (kept := List.filter _ irs).
  do 2 f_equal.
  repeat (apply (f_equal2 cons); [apply (f_equal2 pair); [reflexivity|]|]);
    try reflexivity;
    f_equal; apply map_ext; intros [i r];
    unfold fuel_category, fuel_total, raw_text; simpl;
    by rewrite ?strip_strip.
Qed.

(** ** The parsers, record by record *)

(** The fuel parser as a function of the setup lines and of the rows that
    pandas reads. *)
Lemma parse_fuel_log_table (read_csv : str -> option RawFrame)
  (to_datetime : list (option str) -> nat -> option Z) (text : str) :
  fuel_read_regular read_csv text ->
  parse_fuel_log read_csv to_datetime text =
  let s := fuel_read_setup (Py.readlines text) in
  Some (match data_header_index s with
        | None => Pd.empty empty_fuel_cols_template
        | Some idx =>
            match read_csv (concat (drop idx (Py.readlines text))) with
            | None => Pd.empty empty_fuel_cols_template
            | Some raw => fuel_result to_datetime (fuel_type_mapping s) (raw_rows raw)
            end
        end, initial_stock s).
Proof.
  intros Hreg. unfold parse_fuel_log. cbv zeta.
  destruct (data_header_index _) as [idx|] eqn:Hidx; [|done].
  destruct (read_csv _) as [raw|] eqn:Hread; [|done].
  destruct (Hreg idx raw Hidx Hread) as [Hlen Hnd].
  unfold Pd.is_empty. rewrite <- (length_map fst (cols _)).
  fold (Pd.columns (frame_of_raw raw)). rewrite frame_of_raw_columns, Hlen.
  rewrite orb_false_r. unfold fuel_result. simpl nrows.
  destruct (raw_rows raw) as [|r rows] eqn:Hrows; [done|].
  rewrite <- Hrows. destruct (length (raw_rows raw)) eqn:Hn; [by rewrite Hrows in Hn|].
  simpl Nat.eqb. cbv iota. by rewrite fuel_clean_table.
Qed.

Lemma stock_table_record (with_min : bool) (rows : list (list str)) (i : nat)
  (r : list str) :
  List.filter stock_valid rows !! i = Some r ->
  Pd.record (stock_table with_min rows) i = stock_record with_min r.
Proof.
  intros Hr. destruct rows as [|r0 rows']; [done|].
  unfold stock_table, Pd.record, stock_record.
  set (kept := List.filter _ _) in *. cbn [cols map Pd.series_cells].
  by rewrite !map_map, !lookup_map, Hr.
Qed.

Lemma stock_table_nrows (with_min : bool) (rows : list (list str)) :
  nrows (stock_table with_min rows) = length (List.filter stock_valid rows).
Proof. by destruct rows. Qed.

Lemma fuel_table_record (to_datetime : list (option str) -> nat -> option Z)
  (mapping : gmap (list N) (list N)) (rows : list (list (option str))) (i : nat)
  (ir : nat * list (option str)) :
  List.filter (fuel_valid to_datetime rows) (zip (seq 0 (length rows)) rows) !! i
    = Some ir ->
  Pd.record (fuel_result to_datetime mapping rows) i
    = fuel_record to_datetime mapping rows ir.
Proof.
  intros Hr. destruct rows as [|r0 rows']; [done|].
  unfold fuel_result, fuel_table, Pd.record, fuel_record. cbv zeta.
  set (kept := List.filter _ _) in *. cbn [cols map Pd.series_cells].
  by rewrite !map_map, !lookup_map, Hr.
Qed.

Lemma fuel_result_nrows (to_datetime : list (option str) -> nat -> option Z)
  (mapping : gmap (list N) (list N)) (rows : list (list (option str))) :
  nrows (fuel_result to_datetime mapping rows)
  = length (List.filter (fuel_valid to_datetime rows) (zip (seq 0 (length rows)) rows)).
Proof. by destruct rows. Qed.

(** ** C2: the header that is not found *)

(** C2 (as stated, refuted).  The fuel log [fuel_no_header] has a balance
    line and no data header: no line of the window is the header, and the
    fuel parser returns the empty table of the template with the balances
    read, a success value, not the hard-failure marker. *)
Lemma C2_counterexample :
  data_header_index (fuel_read_setup (Py.readlines fuel_no_header)) = None
  /\ Spec.locate (Py.readlines fuel_no_header) [expected_data_header_simple_v2] 100 = None
  /\ parse_fuel_log Sample.read_csv Sample.to_datetime fuel_no_header
     = Some (Pd.empty empty_fuel_cols_template,
             <[NAFTA := Float.zero]> (<[GASOIL := Float.dyadic 500 0]> ∅))
  /\ parse_fuel_log Sample.read_csv Sample.to_datetime fuel_no_header <> None.
Proof. repeat split; try (vm_compute; reflexivity). vm_compute. discriminate. Qed.

(** C2 (amended).  Stock and budget files: the parse returns the
    hard-failure marker [None] exactly when no header line is located in
    the scan window; with a header the parse succeeds, and without data
    rows below it the result is the empty table with the canonical columns,
    resp. the zeroed grid.  Fuel log: when no data header is located in the
    scan window the parse returns a success value, the empty table of the
    template with the balances read from the [SETUP] lines; when the header
    is found and the block below it is read into eight columns, the parse
    succeeds too, with the empty table of the template if there is no data
    row. *)
Theorem C2_header_not_found :
  (forall text,
     parse_stock_visma text = None <-> stock_find_header (Py.readlines text) = None)
  /\ (forall text idx names,
        stock_find_header (Py.readlines text) = Some (idx, names) ->
        stock_rows (Py.readlines text) idx names = [] ->
        parse_stock_visma text = Some (Pd.empty final_cols_order))
  /\ (forall text,
        parse_eco_visma text = None <->
        find_header_row (Py.readlines text) expected_header_simple 50 = None)
  /\ (forall text idx names,
        find_header_row (Py.readlines text) expected_header_simple 50 = Some (idx, names) ->
        eco_rows (Py.readlines text) idx names = [] ->
        parse_eco_visma text = Some zeroed_eco_data_structure)
  /\ (forall read_csv to_datetime text,
        data_header_index (fuel_read_setup (Py.readlines text)) = None ->
        parse_fuel_log read_csv to_datetime text =
        Some (Pd.empty empty_fuel_cols_template,
              initial_stock (fuel_read_setup (Py.readlines text))))
  /\ (forall read_csv to_datetime text,
        fuel_read_regular read_csv text ->
        parse_fuel_log read_csv to_datetime text <> None)
  /\ (forall read_csv to_datetime text idx raw,
        fuel_read_regular read_csv text ->
        data_header_index (fuel_read_setup (Py.readlines text)) = Some idx ->
        read_csv (concat (drop idx (Py.readlines text))) = Some raw ->
        raw_rows raw = [] ->
        parse_fuel_log read_csv to_datetime text =
        Some (Pd.empty empty_fuel_cols_template,
              initial_stock (fuel_read_setup (Py.readlines text)))).
Proof.
  repeat apply conj.
  - intros text. rewrite parse_stock_visma_table.
    by destruct (stock_find_header _) as [[idx names]|].
  - intros text idx names H Hrows. by rewrite parse_stock_visma_table, H, Hrows.
  - intros text. rewrite parse_eco_visma_grid.
    by destruct (find_header_row _ _ _) as [[idx names]|].
  - intros text idx names H Hrows. by rewrite parse_eco_visma_grid, H, Hrows.
  - intros read_csv to_datetime text H. unfold parse_fuel_log. cbv zeta. by rewrite H.
  - intros read_csv to_datetime text H. by rewrite parse_fuel_log_table.
  - intros read_csv to_datetime text idx raw H Hidx Hread Hrows.
    rewrite parse_fuel_log_table by done. cbv zeta. by rewrite Hidx, Hread, Hrows.
Qed.

Lemma C2_header_not_found_witness :
  parse_fuel_log Sample.read_csv Sample.to_datetime fuel_no_header =
  Some (Pd.empty empty_fuel_cols_template,
        initial_stock (fuel_read_setup (Py.readlines fuel_no_header))).
Proof.
  apply (proj1 (proj2 (proj2 (proj2 (proj2 C2_header_not_found))))).
  vm_compute. reflexivity.
Defined.

(** ** The columns of a record *)

Lemma cell_at_record (df : DataFrame) (col : str) (i : nat) :
  Pd.cell_at df col i =
  match List.find (fun lc => Py.eqb (fst lc) col) (Pd.record df i) with
  | Some lc => snd lc
  | None => None
  end.
Proof.
  unfold Pd.cell_at, Pd.getcol, Pd.record.
  induction (cols df) as [|[c s] l IH]; simpl; [done|].
  by destruct (Py.eqb c col).
Qed.

Lemma select_repeat {A} (x : A) (mask : list bool) (n k : nat) :
  Pd.select mask (repeat x n) = repeat x (length (Pd.select mask (seq k n))).
Proof.
  revert n k. induction mask as [|b mask IH]; intros [|n] k; simpl; try done.
  destruct b; simpl; by rewrite (IH n (S k)).
Qed.

Lemma stock_clean_no_location (n : nat) (c0 c1 c2 c3 c4 : list str) :
  stock_clean
    (mk_frame n
       [(Codigo, StrS c0); (Producto, StrS c1); (Categoria, StrS c2);
        (CantidadActual, StrS c3); (CostoUnitario, StrS c4)])
  = let mask := zip_with andb (map (fun x => negb (Py.eqb x [])) (map Py.strip c0))
                              (map (fun x => negb (Py.eqb x [])) (map Py.strip c2)) in
    let q := map (fun x => safe_float_parse (Some x)) c3 in
    let c := map (fun x => safe_float_parse (Some x)) c4 in
    Some (mk_frame (length (Pd.select mask (seq 0 n)))
      [(Codigo, StrS (Pd.select mask (map Py.strip c0)));
       (Producto, StrS (Pd.select mask (map Py.strip c1)));
       (Categoria, StrS (Pd.select mask (map Py.strip c2)));
       (CantidadActual, NumS (Pd.select mask q));
       (CostoUnitario, NumS (Pd.select mask c));
       (Valor_Total_Item,
         NumS (Pd.select mask
                 (zip_with (fun p q => Float.mul (Float.fillna0 p) (Float.fillna0 q)) q c)));
       (Ubicacion, StrS (Pd.select mask (repeat [] n)));
       (STOCK_MINIMO, NumS (Pd.select mask (repeat Float.zero n)))]).
Proof. cbv -[safe_float_parse Py.strip Float.mul Float.fillna0]. reflexivity. Qed.

Lemma stock_table_columns (with_min : bool) (rows : list (list str)) :
  Pd.columns (stock_table with_min rows) = final_cols_order.
Proof. by destruct rows. Qed.

Lemma stock_table_labels (with_min : bool) (rows : list (list str)) (i : nat) :
  (i < nrows (stock_table with_min rows))%nat ->
  record_labels (stock_table with_min rows) i = final_cols_order.
Proof.
  rewrite stock_table_nrows. intros [r Hr]%lookup_lt_is_Some_2.
  unfold record_labels. by rewrite (stock_table_record _ _ _ r).
Qed.

Lemma fuel_columns_template :
  Permutation empty_fuel_cols_template internal_standard_cols_ordered.
Proof.
  unfold empty_fuel_cols_template, internal_standard_cols_ordered.
  do 6 apply perm_skip.
  apply (Permutation_app_tail [Costo_Unitario_Lt; Costo_Total_Egreso]
           (Permutation_rev [Comentarios; Tipo_de_Comb; Hs_Km_Numeric])).
Qed.

Lemma fuel_result_columns (to_datetime : list (option str) -> nat -> option Z)
  (mapping : gmap (list N) (list N)) (rows : list (list (option str))) :
  Permutation (Pd.columns (fuel_result to_datetime mapping rows))
    internal_standard_cols_ordered.
Proof. destruct rows; [apply fuel_columns_template|done]. Qed.

Lemma fuel_result_labels (to_datetime : list (option str) -> nat -> option Z)
  (mapping : gmap (list N) (list N)) (rows : list (list (option str))) (i : nat) :
  (i < nrows (fuel_result to_datetime mapping rows))%nat ->
  record_labels (fuel_result to_datetime mapping rows) i
  = internal_standard_cols_ordered.
Proof.
  rewrite fuel_result_nrows. intros [r Hr]%lookup_lt_is_Some_2.
  unfold record_labels. by rewrite (fuel_table_record _ _ _ _ r).
Qed.

Lemma lookup_repeat {A} (x : A) (n i : nat) :
  (i < n)%nat -> repeat x n !! i = Some x.
Proof.
  revert i. induction n as [|n IH]; intros [|i] Hi; simpl; try done; try lia.
  apply IH. lia.
Qed.

(** ** C5: the canonical columns *)

(** C5.  Stock: the table returned has the eight canonical columns, and
    every record has a cell for each of them, whichever header was found;
    with the header without [STOCK_MINIMO] every record has that column
    equal to 0.0; the cleaning of a frame without the column [Ubicacion]
    gives every record the empty string there, and so does a row too short
    to have the field.  Budget: the grid returned has the four canonical
    keys in both seasons and no other.  Fuel log (the block being read into
    eight columns, if it is read): the table returned has the eleven
    canonical columns, and every record has a cell for each of them. *)
Theorem C5_canonical_columns :
  (forall text df,
     parse_stock_visma text = Some df ->
     Pd.columns df = final_cols_order
     /\ forall i, (i < nrows df)%nat -> record_labels df i = final_cols_order)
  /\ (forall text idx df i,
        stock_find_header (Py.readlines text) = Some (idx, expected_header_no_min) ->
        parse_stock_visma text = Some df -> (i < nrows df)%nat ->
        Pd.cell_at df STOCK_MINIMO i = Some (CNum Float.zero))
  /\ (forall n c0 c1 c2 c3 c4 df i,
        stock_clean
          (mk_frame n
             [(Codigo, StrS c0); (Producto, StrS c1); (Categoria, StrS c2);
              (CantidadActual, StrS c3); (CostoUnitario, StrS c4)]) = Some df ->
        (i < nrows df)%nat ->
        Pd.columns df = final_cols_order
        /\ Pd.cell_at df Ubicacion i = Some (CStr [])
        /\ Pd.cell_at df STOCK_MINIMO i = Some (CNum Float.zero))
  /\ (exists df,
        parse_stock_visma stock_no_min_example = Some df
        /\ nrows df = 1%nat
        /\ Pd.cell_at df Ubicacion 0 = Some (CStr [])
        /\ Pd.cell_at df STOCK_MINIMO 0 = Some (CNum Float.zero))
  /\ (forall text e key,
        parse_eco_visma text = Some e ->
        (is_Some (invierno e !! key) <-> key ∈ expected_internal_keys_eco)
        /\ (is_Some (verano e !! key) <-> key ∈ expected_internal_keys_eco))
  /\ (forall read_csv to_datetime text,
        fuel_read_regular read_csv text ->
        exists df b,
          parse_fuel_log read_csv to_datetime text = Some (df, b)
          /\ Permutation (Pd.columns df) internal_standard_cols_ordered
          /\ forall i, (i < nrows df)%nat ->
                       record_labels df i = internal_standard_cols_ordered).
Proof.
  repeat apply conj.
  - intros text df. rewrite parse_stock_visma_table.
    destruct (stock_find_header _) as [[idx names]|]; [|done].
    intros [= <-]. split; [apply stock_table_columns|apply stock_table_labels].
  - intros text idx df i Hh. rewrite parse_stock_visma_table, Hh.
    change (Py.list_eqb expected_header_no_min expected_header_full) with false.
    intros [= <-]. rewrite stock_table_nrows. intros [r Hr]%lookup_lt_is_Some_2.
    by rewrite cell_at_record, (stock_table_record _ _ _ r).
  - intros n c0 c1 c2 c3 c4 df i. rewrite stock_clean_no_location. cbv zeta.
    intros [= <-]. set (mask := zip_with _ _ _). simpl nrows. intros Hi.
    split; [done|].
    unfold Pd.cell_at. change (Pd.getcol Ubicacion _) with
      (Some (StrS (Pd.select mask (repeat (@nil N) n)))).
    change (Pd.getcol STOCK_MINIMO _) with
      (Some (NumS (Pd.select mask (repeat Float.zero n)))).
    simpl. rewrite !(select_repeat _ mask n 0), !lookup_map.
    by rewrite !lookup_repeat.
  - eexists. split; [vm_compute; reflexivity|]. repeat split; vm_compute; reflexivity.
  - intros text e key. rewrite parse_eco_visma_grid.
    destruct (find_header_row _ _ _) as [[idx names]|]; [|done].
    intros [= <-]. simpl. rewrite !eco_season_lookup.
    case_bool_decide; split; split; try done; by intros [? ?].
  - intros read_csv to_datetime text Hreg. do 2 eexists.
    split; [by apply parse_fuel_log_table|]. cbv zeta.
    destruct (data_header_index _) as [idx|];
      [destruct (read_csv _) as [raw|]|].
    + split; [apply fuel_result_columns|apply fuel_result_labels].
    + split; [apply fuel_columns_template|simpl; lia].
    + split; [apply fuel_columns_template|simpl; lia].
Qed.
